(** * PiThermalCam: [sequential_versions/matplotlib_therm_cam.py]

    A shallow embedding of the sequential thermal-camera script and the
    properties of its five run modes.

    Modelling conventions.
    - The readings of a frame and the clock values are binary64 numbers in
      the script.  Every such number is a rational, and the model keeps
      them as exact rationals ([Q]); comparison, minimum and maximum are
      exact on them.  The arithmetic of the script that rounds is done on
      binary64 ([float]): [c_to_f] is the source expression on binary64, and
      [np.mean] is taken from numpy as it is, as a function of the
      environment with a binary64 result.
    - The sensor driver, the monotonic clock, [scipy.ndimage.zoom] and the
      parsed configuration file are external to the script: they are the
      fields of an environment [Env] which the script queries.  The [k]-th
      call of [mlx.getFrame] gets the [k]-th answer of the environment.
    - Calls into the plotting toolkit, [print], the logger and the profiler
      are recorded, in order, in a trace of [event]s; they are taken to
      return normally, so that the exceptions of a run come from the frame
      read, from [numpy] or from [config.get].
    - [while True] loops run on fuel: [OutOfFuel] is the result of a run
      that is still looping when the fuel is spent. *)

From Stdlib Require Import List String Bool Arith ZArith QArith Qminmax Qround.
From Stdlib Require Import Lia Lqa Floats.
Import ListNotations.

Open Scope string_scope.
Open Scope list_scope.
Open Scope nat_scope.

(** ** Exceptions *)

(** The exceptions that matter to the script: [ValueError] is what the
    frame read raises on a transient error and what [numpy] raises on a bad
    shape; the others stand for every failure the script does not handle. *)
Inductive exn : Type :=
| ValueError
| RuntimeError
| OSError
| NoSectionError
| NoOptionError.

Definition exn_eqb (a b : exn) : bool :=
  match a, b with
  | ValueError, ValueError
  | RuntimeError, RuntimeError
  | OSError, OSError
  | NoSectionError, NoSectionError
  | NoOptionError, NoOptionError => true
  | _, _ => false
  end.

(** ** The part of numpy the script uses *)

Definition grid : Type := list (list Q).

Module np.

(** [np.zeros((n,))] *)
Definition zeros (n : nat) : list Q := repeat 0%Q n.

(** [np.zeros((rows, cols))] *)
Definition zeros2 (shape : nat * nat) : grid :=
  repeat (repeat 0%Q (snd shape)) (fst shape).

(** The rows of a row-major reshape: [rows] slices of [cols] elements. *)
Fixpoint rows_of {A : Type} (rows cols : nat) (a : list A) : list (list A) :=
  match rows with
  | O => []
  | S r => firstn cols a :: rows_of r cols (skipn cols a)
  end.

(** [np.reshape(a, (rows, cols))]: raises [ValueError] when the size of
    [a] is not [rows * cols]. *)
Definition reshape {A : Type} (a : list A) (shape : nat * nat)
  : exn + list (list A) :=
  let '(rows, cols) := shape in
  if List.length a =? rows * cols then inr (rows_of rows cols a)
  else inl ValueError.

(** [np.fliplr]: every row is reversed. *)
Definition fliplr {A : Type} (m : list (list A)) : list (list A) :=
  map (@rev A) m.

(** [np.min] and [np.max] of a two-dimensional array: [ValueError] on an
    array without elements. *)
Definition min (m : grid) : exn + Q :=
  match List.concat m with
  | [] => inl ValueError
  | x :: xs => inr (fold_left Qmin xs x)
  end.

Definition max (m : grid) : exn + Q :=
  match List.concat m with
  | [] => inl ValueError
  | x :: xs => inr (fold_left Qmax xs x)
  end.

End np.

(** A grid has shape [(rows, cols)]. *)
Definition has_shape {A : Type} (rows cols : nat) (m : list (list A)) : Prop :=
  List.length m = rows /\ Forall (fun row => List.length row = cols) m.

(** Entry [(r, c)] of a grid. *)
Definition entry {A : Type} (m : list (list A)) (r c : nat) : option A :=
  match nth_error m r with
  | Some row => nth_error row c
  | None => None
  end.

(** ** Temperature conversion *)

(** [c_to_f]: [(9.0 / 5.0) * temp + 32.0], on binary64. *)
Definition c_to_f (temp : float) : float := ((9 / 5) * temp + 32)%float.

(** The rational a finite binary64 number stands for: [m * 2 ^ e], with
    its sign.  Infinities and nan stand for none. *)
Definition two_power (e : Z) : Q :=
  if (0 <=? e)%Z then inject_Z (2 ^ e) else (1 # Z.to_pos (2 ^ (- e)))%Q.

Definition float_value (f : float) : option Q :=
  match Prim2SF f with
  | S754_zero _ => Some 0%Q
  | S754_finite s m e =>
      Some ((if s then inject_Z (Z.neg m) else inject_Z (Z.pos m)) * two_power e)%Q
  | _ => None
  end.

(** The binary64 number of a (small) integer. *)
Definition float_of_Z (z : Z) : float :=
  if (z <? 0)%Z then (- of_uint63 (Uint63.of_Z (- z)))%float
  else of_uint63 (Uint63.of_Z z).


(** ** The outside world *)

(** One answer of [mlx.getFrame]: the readings the driver stores into the
    frame buffer, or the exception it raises. *)
Inductive read_result : Type :=
| FrameData (readings : list Q)
| ReadError (e : exn).

(** A parsed configuration file, as [configparser] presents it:
    [cfg_sections] is [config.sections()], [cfg_get section option] is
    [config.get(section=..., option=..., raw=True)]. *)
Record ConfigParser : Type := {
  cfg_sections : list string;
  cfg_get : string -> string -> exn + string
}.

Record Env : Type := {
  mlx_getFrame : nat -> read_result;     (* answer to the k-th frame read *)
  time_monotonic : nat -> Q;             (* value of the k-th clock read *)
  ndimage_zoom : grid -> nat -> grid;    (* scipy.ndimage.zoom *)
  np_mean : list Q -> float;             (* numpy.mean of a 1-d array *)
  config : ConfigParser;                 (* sequential_config.ini, parsed *)
  profiling : bool;                      (* the module constant [profiling] *)
  DEBUG_MODE : bool                      (* the module constant [DEBUG_MODE] *)
}.

Definition with_config (env : Env) (c : ConfigParser) : Env :=
  {| mlx_getFrame := mlx_getFrame env;
     time_monotonic := time_monotonic env;
     ndimage_zoom := ndimage_zoom env;
     np_mean := np_mean env;
     config := c;
     profiling := profiling env;
     DEBUG_MODE := DEBUG_MODE env |}.

(** ** Observable effects *)

Inductive level : Type := DEBUG | INFO | WARNING.

(** What [print] writes.  The two rate messages print
    [len(t_array) / np.sum(t_array)]; the event keeps [t_array]. *)
Inductive message : Type :=
| MeanTemp (temp_c temp_f : float)
| SampleRate (t_array : list Q)
| FrameRate (t_array : list Q)
| IncorrectMode.

Inductive event : Type :=
| LoggingBasicConfig (filename : option string) (lvl : level)
| LoggerDisabled (name : string)
| ConfigRead (filename : string)
| Log (lvl : level) (msg : string) (args : list string)
| I2CInit (frequency : Z)
| MLXInit
| SetRefreshRate (hz : nat)
| ProfileEnable
| PltIon
| PltSubplots (w h : nat)
| PltFigure (w h : nat)
| AddSubplot
| SubplotsAdjust
| Imshow (data : grid) (vmin vmax : Q)
| Colorbar
| CbarSetLabel
| CanvasDraw
| CopyFromBbox
| FigShow
| RestoreRegion
| SetData (data : grid)
| SetArray (data : grid)
| SetClim (vmin vmax : Q)
| CbarOnMappableChanged
| PltPause
| DrawArtist
| CanvasBlit
| FlushEvents
| SaveFig (path : string)
| Stdout (m : message)
| ProfileDisable
| DumpStats (path : string)
| StatsLoad (path : string)
| SortStats
| PrintStats (n : nat).

(** ** The state of a run *)

(** [reads] and [ticks] count the calls of [mlx.getFrame] and of
    [time.monotonic] made so far; [trace] holds the events, the latest
    first. *)
Record St : Type := {
  reads : nat;
  ticks : nat;
  trace : list event
}.

Definition st0 : St := {| reads := 0; ticks := 0; trace := [] |}.

(** The events of a run in the order they happened. *)
Definition events (st : St) : list event := rev (trace st).

(** The state after one more event, frame read or clock read. *)
Definition push (e : event) (st : St) : St :=
  {| reads := reads st; ticks := ticks st; trace := e :: trace st |}.

Definition after_read (st : St) : St :=
  {| reads := S (reads st); ticks := ticks st; trace := trace st |}.

Definition after_tick (st : St) : St :=
  {| reads := reads st; ticks := S (ticks st); trace := trace st |}.

(** ** Computations *)

Inductive res (A : Type) : Type :=
| Val (a : A)          (* returned [a] *)
| Exc (e : exn)        (* raised [e], not handled *)
| OutOfFuel.           (* still looping *)
Arguments Val {A} a.
Arguments Exc {A} e.
Arguments OutOfFuel {A}.

Definition M (A : Type) : Type := Env -> St -> res A * St.

Definition ret {A : Type} (a : A) : M A := fun _ st => (Val a, st).

Definition bind {A B : Type} (m : M A) (k : A -> M B) : M B :=
  fun env st =>
    match m env st with
    | (Val a, st') => k a env st'
    | (Exc e, st') => (Exc e, st')
    | (OutOfFuel, st') => (OutOfFuel, st')
    end.

Declare Scope m_scope.
Delimit Scope m_scope with M.
Bind Scope m_scope with M.
Notation "x <- m ;; k" := (bind m (fun x => k))
  (at level 61, m at next level, right associativity) : m_scope.
Notation "m ;; k" := (bind m (fun _ => k))
  (at level 61, right associativity) : m_scope.
Open Scope m_scope.

(** A pure computation that may raise. *)
Definition lift {A : Type} (r : exn + A) : M A :=
  fun _ st => match r with inr a => (Val a, st) | inl e => (Exc e, st) end.

Definition emit (e : event) : M unit :=
  fun _ st => (Val tt, push e st).

Definition print (m : message) : M unit := emit (Stdout m).

(** [try: body except exc: handler]. *)
Definition try_except {A : Type} (body : M A) (exc : exn) (handler : M A) : M A :=
  fun env st =>
    match body env st with
    | (Exc e, st') => if exn_eqb e exc then handler env st' else (Exc e, st')
    | r => r
    end.

(** The logger: the level is DEBUG when [DEBUG_MODE] is set and WARNING
    otherwise, so debug and info records are written only in debug mode. *)
Definition logger_debug (msg : string) (args : list string) : M unit :=
  fun env st => if DEBUG_MODE env then emit (Log DEBUG msg args) env st
                else (Val tt, st).

Definition logger_info (msg : string) : M unit :=
  fun env st => if DEBUG_MODE env then emit (Log INFO msg []) env st
                else (Val tt, st).

(** [time.monotonic()] *)
Definition monotonic : M Q :=
  fun env st => (Val (time_monotonic env (ticks st)), after_tick st).

(** The driver writes its readings into the caller's buffer: the buffer
    keeps its length. *)
Definition refresh (frame readings : list Q) : list Q :=
  firstn (List.length frame) (readings ++ skipn (List.length readings) frame).

(** [mlx.getFrame(frame)]: the value is the refreshed buffer. *)
Definition getFrame (frame : list Q) : M (list Q) :=
  fun env st =>
    match mlx_getFrame env (reads st) with
    | FrameData readings => (Val (refresh frame readings), after_read st)
    | ReadError e => (Exc e, after_read st)
    end.

(** ** Loops *)

Inductive ctl : Type := Continue | Break.

(** [n] rounds of a loop body over the loop's variables [L]; it stops
    early at a [break] or an exception. *)
Fixpoint iterate {L : Type} (n : nat) (body : L -> M (ctl * L)) (l : L)
  : M (ctl * L) :=
  match n with
  | O => ret (Continue, l)
  | S n' =>
      r <- body l ;;
      match fst r with
      | Break => ret (Break, snd r)
      | Continue => iterate n' body (snd r)
      end
  end.

(** [while True: body], on [fuel] rounds. *)
Definition while_True {L : Type} (fuel : nat) (body : L -> M (ctl * L)) (l : L)
  : M L :=
  fun env st =>
    match iterate fuel body l env st with
    | (Val (Break, l'), st') => (Val l', st')
    | (Val (Continue, _), st') => (OutOfFuel, st')
    | (Exc e, st') => (Exc e, st')
    | (OutOfFuel, st') => (OutOfFuel, st')
    end.

(** ** The run modes *)

(** [a > b] on clock values. *)
Definition Qgtb (a b : Q) : bool := negb (Qle_bool a b).

(** *** Mode 1: [print_mean_temp] *)

(** One round of the read loop: [getFrame], then [break]; on [ValueError],
    [continue]. *)
Definition print_mean_temp_body (frame : list Q) : M (ctl * list Q) :=
  try_except
    (frame' <- getFrame frame ;;
     ret (Break, frame'))
    ValueError
    (ret (Continue, frame)).

Definition print_mean_temp (fuel : nat) : M (float * float) :=
  let frame := np.zeros (24 * 32) in
  frame <- while_True fuel print_mean_temp_body frame ;;
  temp_c <- (fun env => ret (np_mean env frame) env) ;;
  let temp_f := c_to_f temp_c in
  print (MeanTemp temp_c temp_f) ;;
  ret (temp_c, temp_f).

(** *** Mode 2: [simple_pic] *)

Definition simple_pic (output_folder : string) : M unit :=
  emit (SetRefreshRate 2) ;;
  let mlx_shape := (24, 32) in
  emit (PltSubplots 12 7) ;;
  emit (Imshow (np.zeros2 mlx_shape) 0 60) ;;
  emit Colorbar ;;
  emit CbarSetLabel ;;
  let frame := np.zeros (24 * 32) in
  frame <- getFrame frame ;;
  data_array <- lift (np.reshape frame mlx_shape) ;;
  emit (SetData (np.fliplr data_array)) ;;
  vmin <- lift (np.min data_array) ;;
  vmax <- lift (np.max data_array) ;;
  emit (SetClim vmin vmax) ;;
  emit CbarOnMappableChanged ;;
  emit PltPause ;;
  emit (SaveFig (output_folder ++ "simple_pic.png")).

(** *** Mode 3: [simple_camera_read] *)

(** The loop's variables are [frame] and [t_array].  The whole round after
    the first clock read is inside the [try]. *)
Definition simple_camera_read_body (mlx_shape : nat * nat)
    (l : list Q * list Q) : M (ctl * (list Q * list Q)) :=
  let '(frame, t_array) := l in
  t1 <- monotonic ;;
  try_except
    (frame <- getFrame frame ;;
     data_array <- lift (np.reshape frame mlx_shape) ;;
     emit (SetData (np.fliplr data_array)) ;;
     vmin <- lift (np.min data_array) ;;
     vmax <- lift (np.max data_array) ;;
     emit (SetClim vmin vmax) ;;
     emit CbarOnMappableChanged ;;
     emit PltPause ;;
     t2 <- monotonic ;;
     let t_array := t_array ++ [(t2 - t1)%Q] in
     print (SampleRate t_array) ;;
     ret (Continue, (frame, t_array)))
    ValueError
    (ret (Continue, (frame, t_array))).

Definition simple_camera_read (fuel : nat) : M unit :=
  emit (SetRefreshRate 8) ;;
  let mlx_shape := (24, 32) in
  emit PltIon ;;
  emit (PltSubplots 12 7) ;;
  emit (Imshow (np.zeros2 mlx_shape) 0 60) ;;
  emit Colorbar ;;
  emit CbarSetLabel ;;
  let frame := np.zeros (24 * 32) in
  let t_array := [] in
  while_True fuel (simple_camera_read_body mlx_shape) (frame, t_array) ;;
  ret tt.

(** *** Mode 4: [interpolated_pic] *)

Definition interpolated_pic (output_folder : string) : M unit :=
  emit (SetRefreshRate 4) ;;
  let mlx_shape := (24, 32) in
  let mlx_interp_val := 10 in
  let mlx_interp_shape :=
    (fst mlx_shape * mlx_interp_val, snd mlx_shape * mlx_interp_val) in
  logger_debug "Setting up plot" [] ;;
  emit (PltFigure 12 9) ;;
  emit AddSubplot ;;
  emit SubplotsAdjust ;;
  emit (Imshow (np.zeros2 mlx_interp_shape) 25 45) ;;
  emit Colorbar ;;
  emit CbarSetLabel ;;
  emit CanvasDraw ;;
  emit CopyFromBbox ;;
  emit FigShow ;;
  let frame := np.zeros (fst mlx_shape * snd mlx_shape) in
  let plot_update : M unit :=
    logger_debug "Updating plot" [] ;;
    emit RestoreRegion ;;
    frame <- getFrame frame ;;
    data_array <- lift (np.reshape frame mlx_shape) ;;
    let data_array := np.fliplr data_array in
    data_array <- (fun env => ret (ndimage_zoom env data_array mlx_interp_val) env) ;;
    emit (SetArray data_array) ;;
    vmin <- lift (np.min data_array) ;;
    vmax <- lift (np.max data_array) ;;
    emit (SetClim vmin vmax) ;;
    emit CbarOnMappableChanged ;;
    emit DrawArtist ;;
    emit CanvasBlit ;;
    emit FlushEvents in
  plot_update ;;
  emit (SaveFig (output_folder ++ "interp_pic.png")).

(** *** Mode 5: [interpolated_camera_read] *)

(** The variables of the loop. *)
Record icr_vars : Type := {
  frame : list Q;
  t_array : list Q;
  last_update : Q;
  count : nat
}.

(** The inner function [plot_update(full_update)]; the value is the frame
    buffer after the read. *)
Definition plot_update (mlx_shape : nat * nat) (mlx_interp_val : nat)
    (frame : list Q) (full_update : bool) : M (list Q) :=
  emit RestoreRegion ;;
  frame <- getFrame frame ;;
  data_array <- lift (np.reshape frame mlx_shape) ;;
  let data_array := np.fliplr data_array in
  data_array <- (fun env => ret (ndimage_zoom env data_array mlx_interp_val) env) ;;
  (if full_update then
     emit (SetArray data_array) ;;
     vmin <- lift (np.min data_array) ;;
     vmax <- lift (np.max data_array) ;;
     emit (SetClim vmin vmax) ;;
     emit CbarOnMappableChanged
   else ret tt) ;;
  emit DrawArtist ;;
  emit CanvasBlit ;;
  emit FlushEvents ;;
  ret frame.

(** One round of the loop.  There is no [try] around [plot_update]. *)
Definition interpolated_camera_read_body (output_folder : string)
    (colorbar_update_interval : Q) (mlx_shape : nat * nat)
    (mlx_interp_val : nat) (l : icr_vars) : M (ctl * icr_vars) :=
  t1 <- monotonic ;;
  let full_update := Qgtb (t1 - last_update l) colorbar_update_interval in
  let last_update := if full_update then t1 else last_update l in
  frame <- plot_update mlx_shape mlx_interp_val (frame l) full_update ;;
  t2 <- monotonic ;;
  let t_array := t_array l ++ [(t2 - t1)%Q] in
  let t_array := if 10 <? List.length t_array then tl t_array else t_array in
  if full_update then
    print (FrameRate t_array) ;;
    let count := count l + 1 in
    let l' := {| frame := frame; t_array := t_array;
                 last_update := last_update; count := count |} in
    (fun env =>
       (if profiling env && (20 <=? count) then
          logger_info "Printing and dumping profiling stats" ;;
          emit ProfileDisable ;;
          emit (DumpStats (output_folder ++ "profiling_stats.prof")) ;;
          emit (StatsLoad (output_folder ++ "profiling_stats.prof")) ;;
          emit SortStats ;;
          emit (PrintStats 50) ;;
          ret (Break, l')
        else ret (Continue, l')) env)
  else
    ret (Continue, {| frame := frame; t_array := t_array;
                      last_update := last_update; count := count l |}).

Definition interpolated_camera_read (output_folder : string) (fuel : nat)
  : M unit :=
  let colorbar_update_interval := 5%Q in
  emit (SetRefreshRate 8) ;;
  (fun env => (if profiling env then emit ProfileEnable else ret tt) env) ;;
  let mlx_shape := (24, 32) in
  let mlx_interp_val := 10 in
  let mlx_interp_shape :=
    (fst mlx_shape * mlx_interp_val, snd mlx_shape * mlx_interp_val) in
  emit (PltFigure 9 5) ;;
  emit AddSubplot ;;
  emit SubplotsAdjust ;;
  emit (Imshow (np.zeros2 mlx_interp_shape) 25 45) ;;
  emit Colorbar ;;
  emit CbarSetLabel ;;
  emit CanvasDraw ;;
  emit CopyFromBbox ;;
  emit FigShow ;;
  let frame := np.zeros (fst mlx_shape * snd mlx_shape) in
  let t_array := [] in
  let last_update := (-100)%Q in
  let count := 0 in
  while_True fuel
    (interpolated_camera_read_body output_folder colorbar_update_interval
       mlx_shape mlx_interp_val)
    {| frame := frame; t_array := t_array;
       last_update := last_update; count := count |} ;;
  ret tt.

(** ** The script *)

(** [logging.basicConfig]: in debug mode the records go to the console at
    level DEBUG and the logger of matplotlib's font manager is disabled;
    otherwise they go to the file [pithermcam.log], opened for appending,
    at level WARNING. *)
Definition logging_setup : M unit :=
  fun env =>
    (if DEBUG_MODE env then
       emit (LoggingBasicConfig None DEBUG) ;;
       emit (LoggerDisabled "matplotlib.font_manager")
     else
       emit (LoggingBasicConfig (Some "pithermcam.log") WARNING)) env.

(** The module-level statements before the functions: the logger is set
    up, the configuration file is read and the camera is set up.  The
    value is [output_folder]. *)
Definition module_init : M string :=
  logging_setup ;;
  emit (ConfigRead "sequential_config.ini") ;;
  (fun env =>
     logger_debug "Config file sections found: " (cfg_sections (config env)) env) ;;
  logger_debug "Reading config file and initializing variables..." [] ;;
  output_folder <-
    (fun env => lift (cfg_get (config env) "FILEPATHS" "output_folder") env) ;;
  emit (I2CInit 800000%Z) ;;
  emit MLXInit ;;
  ret output_folder.

(** The dispatch on the mode under [if __name__ == "__main__"]. *)
Definition run_mode (mode : nat) (output_folder : string) (fuel : nat) : M unit :=
  match mode with
  | 1 => print_mean_temp fuel ;; ret tt
  | 2 => simple_pic output_folder
  | 3 => simple_camera_read fuel
  | 4 => interpolated_pic output_folder
  | 5 => interpolated_camera_read output_folder fuel
  | _ => print IncorrectMode
  end.

(** The whole script, for a value of the constant [mode]. *)
Definition main (mode : nat) (fuel : nat) : M unit :=
  output_folder <- module_init ;;
  run_mode mode output_folder fuel.

(** ** Reading a trace *)

(** The arguments of the frame-rate lines printed, the latest first. *)
Definition frame_rates (tr : list event) : list (list Q) :=
  flat_map (fun e => match e with Stdout (FrameRate ta) => [ta] | _ => [] end) tr.

(** The paths profiling statistics were dumped to. *)
Definition stats_dumps (tr : list event) : list string :=
  flat_map (fun e => match e with DumpStats p => [p] | _ => [] end) tr.

(** The paths of every file opened, written or read: the log file, the
    configuration file, figures saved and profiling statistics dumped and
    loaded. *)
Definition file_paths (tr : list event) : list string :=
  flat_map (fun e => match e with
                     | LoggingBasicConfig (Some p) _ => [p]
                     | ConfigRead p => [p]
                     | SaveFig p | DumpStats p | StatsLoad p => [p]
                     | _ => []
                     end) tr.

(** The trace of the module-level statements up to [config.get], the
    latest event first. *)
Definition startup_trace (env : Env) : list event :=
  if DEBUG_MODE env then
    [Log DEBUG "Reading config file and initializing variables..." [];
     Log DEBUG "Config file sections found: " (cfg_sections (config env));
     ConfigRead "sequential_config.ini";
     LoggerDisabled "matplotlib.font_manager";
     LoggingBasicConfig None DEBUG]
  else
    [ConfigRead "sequential_config.ini";
     LoggingBasicConfig (Some "pithermcam.log") WARNING].

(** The last [n] elements of a list. *)
Definition lastn {A : Type} (n : nat) (l : list A) : list A :=
  skipn (List.length l - n) l.

(** The initial variables of the loop of [interpolated_camera_read]. *)
Definition icr_init : icr_vars :=
  {| frame := np.zeros (24 * 32); t_array := [];
     last_update := (-100)%Q; count := 0 |}.

(** ** What a computation may add to the trace *)

(** In the environment [env], [m] only adds events to the trace, and every
    event it adds satisfies [P]. *)
Definition emits_only {A : Type} (P : event -> Prop) (env : Env) (m : M A)
  : Prop :=
  forall st, exists new,
    trace (snd (m env st)) = new ++ trace st /\ Forall P new.

(** Log records are written in debug mode only. *)
Definition logs_if_debug (env : Env) (e : event) : Prop :=
  match e with
  | Log _ _ _ => DEBUG_MODE env = true
  | _ => True
  end.

(** The files mode [mode] may write or read back, with [output_folder] as
    [folder]. *)
Definition file_allowed (mode : nat) (folder : string) (env : Env) (e : event)
  : Prop :=
  match e with
  | LoggingBasicConfig (Some p) _ =>
      DEBUG_MODE env = false /\ p = "pithermcam.log"
  | ConfigRead p => p = "sequential_config.ini"
  | SaveFig p =>
      (mode = 2 /\ p = (folder ++ "simple_pic.png")%string) \/
      (mode = 4 /\ p = (folder ++ "interp_pic.png")%string)
  | DumpStats p | StatsLoad p =>
      mode = 5 /\ profiling env = true /\
      p = (folder ++ "profiling_stats.prof")%string
  | _ => True
  end.

(** The events the script may emit in mode [mode]. *)
Definition script_event (mode : nat) (folder : string) (env : Env) (e : event)
  : Prop :=
  logs_if_debug env e /\ file_allowed mode folder env e.

(** The arguments of the sample-rate lines printed, the latest first. *)
Definition sample_rates (tr : list event) : list (list Q) :=
  flat_map (fun e => match e with Stdout (SampleRate ta) => [ta] | _ => [] end) tr.

(** The durations of the first [n] rounds of a loop that reads the clock
    twice a round, at the start and at the end of the round. *)
Definition timings (env : Env) (n : nat) : list Q :=
  map (fun i => (time_monotonic env (2 * i + 1) - time_monotonic env (2 * i))%Q)
      (seq 0 n).

(** The state when [interpolated_camera_read] enters its loop: the figure
    has been set up. *)
Definition icr_setup (env : Env) (st : St) : St :=
  push FigShow
    (push CopyFromBbox
       (push CanvasDraw
          (push CbarSetLabel
             (push Colorbar
                (push (Imshow (np.zeros2 (24 * 10, 32 * 10)) 25 45)
                   (push SubplotsAdjust
                      (push AddSubplot
                         (push (PltFigure 9 5)
                            (if profiling env
                             then push ProfileEnable (push (SetRefreshRate 8) st)
                             else push (SetRefreshRate 8) st))))))))).

(** What the loops need of [scipy.ndimage.zoom]: zooming an array that
    has elements by 10 gives an array that has elements. *)
Definition zoom_keeps_data (env : Env) : Prop :=
  forall g : grid,
    List.concat g <> [] -> List.concat (ndimage_zoom env g 10) <> [].

(** A clock that never goes back and passes every value. *)
Definition clock_advances (env : Env) : Prop :=
  (forall i j, i <= j -> (time_monotonic env i <= time_monotonic env j)%Q) /\
  (forall q : Q, exists k, (q < time_monotonic env k)%Q).

(** The state after the module-level statements up to [config.get]. *)
Definition after_startup (env : Env) (st : St) : St :=
  {| reads := reads st; ticks := ticks st;
     trace := startup_trace env ++ trace st |}.

(** ** The output folder in a trace *)

(** [folder] put in front of the path of a figure saved or of profiling
    statistics dumped or loaded. *)
Definition in_folder (folder : string) (e : event) : event :=
  match e with
  | SaveFig p => SaveFig (folder ++ p)
  | DumpStats p => DumpStats (folder ++ p)
  | StatsLoad p => StatsLoad (folder ++ p)
  | e => e
  end.

Definition under (folder : string) (st : St) : St :=
  {| reads := reads st; ticks := ticks st;
     trace := map (in_folder folder) (trace st) |}.

(** [m] does what [m0] does, with [folder] in front of the paths. *)
Definition follows {A : Type} (folder : string) (env : Env) (m m0 : M A)
  : Prop :=
  forall st,
    m env (under folder st) = (fst (m0 env st), under folder (snd (m0 env st))).

(** ** Sample inputs *)

(** A frame whose readings are 0, 1, ..., 767. *)
Definition ramp_frame : list Q :=
  map (fun k => inject_Z (Z.of_nat k)) (seq 0 (24 * 32)).

Definition ramp_grid : grid := np.rows_of 24 32 ramp_frame.

(** A configuration file with the one section and key the script reads. *)
Definition sample_config : ConfigParser :=
  {| cfg_sections := ["FILEPATHS"];
     cfg_get := fun section option =>
       if String.eqb section "FILEPATHS" then
         if String.eqb option "output_folder" then inr "/home/pi/snapshots/"
         else inl NoOptionError
       else inl NoSectionError |}.

(** Nearest-neighbour zoom: every reading becomes a [z] by [z] block. *)
Definition zoom_nearest (g : grid) (z : nat) : grid :=
  flat_map (fun row => repeat (flat_map (fun x => repeat x z) row) z) g.

(** A mean on binary64: the readings are added from left to right and the
    sum is divided by their number. *)
Definition float_of_Q (q : Q) : float :=
  (float_of_Z (Qnum q) / float_of_Z (Z.pos (Qden q)))%float.

Definition sample_mean (a : list Q) : float :=
  (fold_left (fun acc x => acc + float_of_Q x) a 0
   / float_of_Z (Z.of_nat (List.length a)))%float.

(** An environment around a sensor: the clock advances by three seconds
    between two reads of it. *)
Definition sample_env (sensor : nat -> read_result) (prof : bool) : Env :=
  {| mlx_getFrame := sensor;
     time_monotonic := fun k => inject_Z (3 * Z.of_nat k);
     ndimage_zoom := zoom_nearest;
     np_mean := sample_mean;
     config := sample_config;
     profiling := prof;
     DEBUG_MODE := false |}.

(** Sensors: one that fails on every read, one that fails twice and then
    works, one that always works, and one on a broken bus. *)
Definition dead_sensor (k : nat) : read_result := ReadError ValueError.

Definition flaky_sensor (k : nat) : read_result :=
  if k <? 2 then ReadError ValueError else FrameData ramp_frame.

Definition good_sensor (k : nat) : read_result := FrameData ramp_frame.

Definition broken_bus (k : nat) : read_result := ReadError OSError.

(** A configuration file without the section [FILEPATHS]. *)
Definition empty_config : ConfigParser :=
  {| cfg_sections := [];
     cfg_get := fun section option => inl NoSectionError |}.



(** A sensor that fails twice with [ValueError] and then with
    [RuntimeError]. *)
Definition failing_sensor (k : nat) : read_result :=
  if k <? 2 then ReadError ValueError else ReadError RuntimeError.

(** A configuration file with more sections and keys than the script
    reads. *)
Definition crowded_config : ConfigParser :=
  {| cfg_sections := ["FILEPATHS"; "CAMERA"];
     cfg_get := fun section option =>
       if String.eqb section "FILEPATHS" then
         if String.eqb option "output_folder" then inr "/home/pi/snapshots/"
         else inr "/home/pi/elsewhere/"
       else if String.eqb section "CAMERA" then inr "8"
       else inl NoSectionError |}.

(** * Properties *)

(** ** Arrays *)

Section Arrays.
Context {A : Type}.

Lemma rows_of_length (rows cols : nat) (a : list A) :
  List.length (np.rows_of rows cols a) = rows.
Proof.
  revert a; induction rows as [|r IH]; intros a; cbn [np.rows_of List.length].
  - reflexivity.
  - now rewrite IH.
Qed.

Lemma rows_of_shape (rows cols : nat) (a : list A) :
  List.length a = rows * cols ->
  has_shape rows cols (np.rows_of rows cols a).
Proof.
  intros Hlen; split; [apply rows_of_length|].
  revert a Hlen; induction rows as [|r IH]; intros a Hlen;
    cbn [np.rows_of]; constructor.
  - rewrite length_firstn. cbn in Hlen. lia.
  - apply IH. rewrite length_skipn. cbn in Hlen. lia.
Qed.

(** Row-major layout: entry [(r, c)] is element [r * cols + c]. *)
Lemma rows_of_entry (rows cols : nat) (a : list A) (r c : nat) :
  r < rows -> c < cols ->
  entry (np.rows_of rows cols a) r c = nth_error a (r * cols + c).
Proof.
  revert a r; induction rows as [|n IH]; intros a r Hr Hc; [lia|].
  unfold entry. destruct r as [|r]; cbn [np.rows_of nth_error].
  - rewrite nth_error_firstn.
    destruct (Nat.ltb_spec c cols); [reflexivity | lia].
  - fold (entry (np.rows_of n cols (skipn cols a)) r c).
    rewrite IH by lia. rewrite nth_error_skipn. f_equal. lia.
Qed.

Lemma fliplr_involutive (m : list (list A)) :
  np.fliplr (np.fliplr m) = m.
Proof.
  unfold np.fliplr. rewrite map_map.
  induction m as [|row m IH]; cbn [map]; [reflexivity|].
  now rewrite rev_involutive, IH.
Qed.

Lemma fliplr_shape (rows cols : nat) (m : list (list A)) :
  has_shape rows cols m -> has_shape rows cols (np.fliplr m).
Proof.
  unfold has_shape, np.fliplr. intros [Hr Hc]. split.
  - now rewrite length_map.
  - clear Hr. induction Hc as [|row m Hrow _ IH]; cbn [map]; constructor.
    + now rewrite length_rev.
    + exact IH.
Qed.

(** Entry [(r, c)] of the mirrored grid is entry [(r, cols - 1 - c)]. *)
Lemma fliplr_entry (rows cols : nat) (m : list (list A)) (r c : nat) :
  has_shape rows cols m -> r < rows -> c < cols ->
  entry (np.fliplr m) r c = entry m r (cols - 1 - c).
Proof.
  unfold has_shape, entry, np.fliplr. intros [Hr Hc] Hlt Hcol.
  rewrite nth_error_map.
  destruct (nth_error m r) as [row|] eqn:E; cbn [option_map]; [|reflexivity].
  assert (Hrow : List.length row = cols).
  { rewrite Forall_forall in Hc. apply Hc. eapply nth_error_In; eauto. }
  destruct (nth_error (rev row) c) as [x|] eqn:Ex.
  - symmetry. rewrite <- (rev_involutive row).
    rewrite nth_error_rev in Ex. rewrite Hrow in Ex.
    destruct (Nat.ltb_spec c cols); [|lia].
    rewrite rev_involutive. rewrite <- Ex. f_equal. lia.
  - apply nth_error_None in Ex. rewrite length_rev in Ex. lia.
Qed.

End Arrays.

(** Two grids of one shape with the same entries are the same grid. *)
Lemma grid_ext {A : Type} (rows cols : nat) (g g' : list (list A)) :
  has_shape rows cols g -> has_shape rows cols g' ->
  (forall r c, r < rows -> c < cols -> entry g r c = entry g' r c) ->
  g = g'.
Proof.
  intros [Hr Hc] [Hr' Hc'] Hent. apply nth_error_ext. intros r.
  destruct (Nat.lt_ge_cases r rows) as [Hlt|Hge].
  - destruct (nth_error g r) as [row|] eqn:E;
      [|apply nth_error_None in E; lia].
    destruct (nth_error g' r) as [row'|] eqn:E';
      [|apply nth_error_None in E'; lia].
    f_equal. apply nth_error_ext. intros c.
    assert (Hl : List.length row = cols).
    { rewrite Forall_forall in Hc. apply Hc. eapply nth_error_In; eauto. }
    assert (Hl' : List.length row' = cols).
    { rewrite Forall_forall in Hc'. apply Hc'. eapply nth_error_In; eauto. }
    destruct (Nat.lt_ge_cases c cols) as [Hclt|Hcge].
    + specialize (Hent r c Hlt Hclt). unfold entry in Hent.
      now rewrite E, E' in Hent.
    + transitivity (@None A); [|symmetry]; apply nth_error_None; lia.
  - transitivity (@None (list A)); [|symmetry]; apply nth_error_None; lia.
Qed.

(** C6: reshaping a 768-element buffer to (24, 32) succeeds, the result
    has 24 rows of 32 columns, element [i] of the buffer is entry
    [(i / 32, i mod 32)], the grid is the only one of that shape with
    these entries, and equal buffers give equal results. *)
Theorem reshape_frame_total (buf : list Q) :
  List.length buf = 768 ->
  exists g,
    np.reshape buf (24, 32) = inr g /\
    has_shape 24 32 g /\
    (forall i, i < 768 -> entry g (i / 32) (i mod 32) = nth_error buf i) /\
    (forall g', has_shape 24 32 g' ->
       (forall i, i < 768 -> entry g' (i / 32) (i mod 32) = nth_error buf i) ->
       g' = g) /\
    (forall buf', buf' = buf -> np.reshape buf' (24, 32) = inr g).
Proof.
  intros Hlen.
  assert (Hlen' : List.length buf = 24 * 32) by exact Hlen.
  assert (Hre : np.reshape buf (24, 32) = inr (np.rows_of 24 32 buf)).
  { unfold np.reshape. rewrite Hlen'. now rewrite Nat.eqb_refl. }
  assert (Hent : forall i, i < 768 ->
            entry (np.rows_of 24 32 buf) (i / 32) (i mod 32) = nth_error buf i).
  { intros i Hi. rewrite rows_of_entry.
    - f_equal. pose proof (Nat.div_mod_eq i 32). lia.
    - apply Nat.Div0.div_lt_upper_bound. lia.
    - apply Nat.mod_upper_bound. lia. }
  exists (np.rows_of 24 32 buf).
  split; [exact Hre|].
  split; [now apply rows_of_shape|].
  split; [exact Hent|].
  split.
  - intros g' Hs Hg'. apply (grid_ext 24 32); [exact Hs | |].
    + now apply rows_of_shape.
    + intros r c Hr Hc.
      assert (Hi : r * 32 + c < 768) by lia.
      pose proof (Hg' _ Hi) as H1. pose proof (Hent _ Hi) as H2.
      replace ((r * 32 + c) / 32) with r in H1, H2
        by (apply Nat.div_unique with c; lia).
      replace ((r * 32 + c) mod 32) with c in H1, H2
        by (apply Nat.mod_unique with r; lia).
      congruence.
  - intros buf' ->. exact Hre.
Qed.

Lemma reshape_frame_total_witness :
  List.length ramp_frame = 768 /\
  exists g,
    np.reshape ramp_frame (24, 32) = inr g /\
    has_shape 24 32 g /\
    (forall i, i < 768 -> entry g (i / 32) (i mod 32) = nth_error ramp_frame i) /\
    (forall g', has_shape 24 32 g' ->
       (forall i, i < 768 ->
          entry g' (i / 32) (i mod 32) = nth_error ramp_frame i) ->
       g' = g) /\
    (forall buf', buf' = ramp_frame -> np.reshape buf' (24, 32) = inr g).
Proof.
  assert (H : List.length ramp_frame = 768) by (vm_compute; reflexivity).
  split; [exact H | exact (reshape_frame_total ramp_frame H)].
Defined.

(** C5: mirroring a 24x32 grid left to right twice gives the grid back;
    the mirrored grid is again 24x32. *)
Theorem fliplr_twice (g : grid) :
  has_shape 24 32 g ->
  np.fliplr (np.fliplr g) = g /\ has_shape 24 32 (np.fliplr g).
Proof.
  intros Hs. split; [apply fliplr_involutive | now apply fliplr_shape].
Qed.

Lemma ramp_grid_shape : has_shape 24 32 ramp_grid.
Proof. apply rows_of_shape. vm_compute. reflexivity. Qed.

Lemma fliplr_twice_witness :
  has_shape 24 32 ramp_grid /\
  np.fliplr (np.fliplr ramp_grid) = ramp_grid /\
  has_shape 24 32 (np.fliplr ramp_grid).
Proof.
  split; [exact ramp_grid_shape | exact (fliplr_twice ramp_grid ramp_grid_shape)].
Defined.

(** ** Temperature conversion *)

(** C3, as stated, fails at 37 degrees: the exact affine map gives
    [(9/5) * 37 + 32 = 98.6], which is no binary64 number; [c_to_f 37] is
    the binary64 number [98.600000000000009], which is not even the
    binary64 number closest to 98.6.  Nor is [c_to_f] one to one, as an
    affine map of slope 9/5 is: 20 and the next binary64 number both go
    to 68. *)
Lemma c_to_f_not_affine_at_37 :
  (exists q r,
      float_value 37 = Some q /\ (q == 37)%Q /\
      float_value (c_to_f 37) = Some r /\
      ~ (r == (9 # 5) * q + 32)%Q) /\
  PrimFloat.eqb (c_to_f 37) 0x1.8a66666666666p+6 = false /\
  (c_to_f 20 = c_to_f (next_up 20) /\ PrimFloat.eqb 20 (next_up 20) = false).
Proof.
  split; [|split; [|split]]; try (vm_compute; reflexivity).
  do 2 eexists.
  split; [vm_compute; reflexivity|].
  split; [vm_compute; reflexivity|].
  split; [vm_compute; reflexivity|].
  intros H. vm_compute in H. discriminate H.
Qed.

(** The multiples of 5 from -270 to 1000, as the integers [k] of [5 * k]. *)
Lemma grid_index (k : Z) :
  (-54 <= k <= 200)%Z ->
  In k (map (fun n => (Z.of_nat n - 54)%Z) (seq 0 255)).
Proof.
  intros H. apply in_map_iff. exists (Z.to_nat (k + 54)). split; [lia|].
  apply in_seq. lia.
Qed.

(** C3, amended: [c_to_f] is the affine map [t |-> (9/5) t + 32] evaluated
    on binary64: the constant 9/5 is the binary64 number 1.8, the product
    and then the sum are rounded as IEEE 754 prescribes.  It returns 32 at
    0 and 212 at 100, and it is exact, equal to [(9/5) t + 32], at every
    multiple of 5 from -270 to 1000. *)
Theorem c_to_f_binary64 :
  (forall t : float, c_to_f t = (0x1.ccccccccccccdp+0 * t + 32)%float) /\
  (forall t : float,
     Prim2SF (c_to_f t) =
     SF64add (SF64mul (Prim2SF (9 / 5)) (Prim2SF t)) (Prim2SF 32)) /\
  c_to_f 0 = 32%float /\
  c_to_f 100 = 212%float /\
  (forall k : Z,
     (-54 <= k <= 200)%Z ->
     exists q r,
       float_value (float_of_Z (5 * k)) = Some q /\
       (q == inject_Z (5 * k))%Q /\
       float_value (c_to_f (float_of_Z (5 * k))) = Some r /\
       (r == (9 # 5) * q + 32)%Q).
Proof.
  split; [intros t; reflexivity|].
  split; [intros t; unfold c_to_f; now rewrite add_spec, mul_spec|].
  split; [vm_compute; reflexivity|].
  split; [vm_compute; reflexivity|].
  intros k Hk.
  assert (Hall : forallb
            (fun k =>
               match float_value (float_of_Z (5 * k)),
                     float_value (c_to_f (float_of_Z (5 * k))) with
               | Some q, Some r =>
                   Qeq_bool q (inject_Z (5 * k)) &&
                   Qeq_bool r ((9 # 5) * q + 32)
               | _, _ => false
               end)
            (map (fun n => (Z.of_nat n - 54)%Z) (seq 0 255)) = true)
    by (vm_compute; reflexivity).
  rewrite forallb_forall in Hall. specialize (Hall k (grid_index k Hk)).
  destruct (float_value (float_of_Z (5 * k))) as [q|]; [|discriminate].
  destruct (float_value (c_to_f (float_of_Z (5 * k)))) as [r|]; [|discriminate].
  apply andb_true_iff in Hall. destruct Hall as [H1 H2].
  exists q, r. repeat split; try reflexivity; now apply Qeq_bool_iff.
Qed.

Lemma c_to_f_binary64_witness :
  (-54 <= 20 <= 200)%Z /\
  exists q r,
    float_value (float_of_Z (5 * 20)) = Some q /\
    (q == inject_Z (5 * 20))%Q /\
    float_value (c_to_f (float_of_Z (5 * 20))) = Some r /\
    (r == (9 # 5) * q + 32)%Q.
Proof.
  assert (H : (-54 <= 20 <= 200)%Z) by lia.
  split; [exact H|].
  exact (proj2 (proj2 (proj2 (proj2 c_to_f_binary64))) 20%Z H).
Defined.

(** ** Loops *)

Section Loops.
Context {L : Type} (body : L -> M (ctl * L)).

Lemma iterate_S (n : nat) (l : L) (env : Env) (st : St) :
  iterate (S n) body l env st =
  match body l env st with
  | (Val (Continue, l'), st') => iterate n body l' env st'
  | (Val (Break, l'), st') => (Val (Break, l'), st')
  | (Exc e, st') => (Exc e, st')
  | (OutOfFuel, st') => (OutOfFuel, st')
  end.
Proof.
  cbn [iterate]. unfold bind.
  destruct (body l env st) as [[[[|] l']|e|] st']; reflexivity.
Qed.

(** Rounds compose: after [n] rounds that did not leave the loop, [m] more
    rounds are [n + m] rounds. *)
Lemma iterate_add (n m : nat) (l l' : L) (env : Env) (st st' : St) :
  iterate n body l env st = (Val (Continue, l'), st') ->
  iterate (n + m) body l env st = iterate m body l' env st'.
Proof.
  revert l st. induction n as [|n IH]; intros l st H.
  - cbn in H. unfold ret in H. now inversion H.
  - cbn [Nat.add]. rewrite iterate_S in *.
    destruct (body l env st) as [[[[|] l1]|e|] st1]; try discriminate.
    now apply IH.
Qed.

(** A loop that has been left stays left, whatever fuel is added. *)
Lemma iterate_left (n m : nat) (l : L) (env : Env) (st : St)
    (r : res (ctl * L)) (st' : St) :
  iterate n body l env st = (r, st') ->
  (forall l', r <> Val (Continue, l')) ->
  n <= m ->
  iterate m body l env st = (r, st').
Proof.
  revert m l st. induction n as [|n IH]; intros m l st H Hr Hle.
  - cbn in H. unfold ret in H. inversion H; subst. now destruct (Hr l).
  - destruct m as [|m]; [lia|]. rewrite iterate_S in *.
    destruct (body l env st) as [[[[|] l1]|e|] st1]; try exact H.
    apply IH; [exact H | exact Hr | lia].
Qed.

(** The invariant rule: what every round keeps holds after any number of
    rounds. *)
Lemma iterate_invariant (I : L -> St -> Prop) (env : Env) :
  (forall l st c l' st',
      I l st -> body l env st = (Val (c, l'), st') -> I l' st') ->
  forall n l st c l' st',
    I l st -> iterate n body l env st = (Val (c, l'), st') -> I l' st'.
Proof.
  intros Hstep. induction n as [|n IH]; intros l st c l' st' HI H.
  - cbn in H. unfold ret in H. now inversion H; subst.
  - rewrite iterate_S in H.
    destruct (body l env st) as [[[[|] l1]|e|] st1] eqn:E; try discriminate.
    + eapply IH; [|exact H]. eapply Hstep; eauto.
    + inversion H; subst. eapply Hstep; eauto.
Qed.

End Loops.

(** ** The frame buffer *)

Lemma refresh_length (frame readings : list Q) :
  List.length (refresh frame readings) = List.length frame.
Proof.
  unfold refresh. rewrite length_firstn, length_app, length_skipn. lia.
Qed.

Lemma refresh_full (frame readings : list Q) :
  List.length readings = List.length frame ->
  refresh frame readings = readings.
Proof.
  intros H. unfold refresh.
  rewrite skipn_all2 by lia. rewrite app_nil_r.
  rewrite <- H. apply firstn_all.
Qed.

Lemma zeros_length (n : nat) : List.length (np.zeros n) = n.
Proof. apply repeat_length. Qed.

(** ** The read loop of [print_mean_temp] *)

(** The three ways one round can go. *)
Lemma print_mean_temp_body_cases (frame : list Q) (env : Env) (st : St) :
  print_mean_temp_body frame env st =
  match mlx_getFrame env (reads st) with
  | FrameData readings => (Val (Break, refresh frame readings), after_read st)
  | ReadError ValueError => (Val (Continue, frame), after_read st)
  | ReadError e => (Exc e, after_read st)
  end.
Proof.
  unfold print_mean_temp_body, try_except, bind, getFrame, ret.
  destruct (mlx_getFrame env (reads st)) as [readings|[]]; reflexivity.
Qed.

(** [n] failed reads in a row: [n] rounds, nothing but the reads happens,
    and the loop goes on. *)
Lemma print_mean_temp_retries (env : Env) (n : nat) (frame : list Q) (st : St) :
  (forall k, k < n -> mlx_getFrame env (reads st + k) = ReadError ValueError) ->
  iterate n print_mean_temp_body frame env st =
  (Val (Continue, frame),
   {| reads := reads st + n; ticks := ticks st; trace := trace st |}).
Proof.
  revert st. induction n as [|n IH]; intros st H.
  - cbn. unfold ret. rewrite Nat.add_0_r. now destruct st.
  - rewrite iterate_S, print_mean_temp_body_cases.
    pose proof (H 0 ltac:(lia)) as H0. rewrite Nat.add_0_r in H0. rewrite H0.
    rewrite IH.
    + cbn. do 2 f_equal. lia.
    + intros k Hk. cbn. replace (S (reads st + k)) with (reads st + S k) by lia.
      apply H. lia.
Qed.

(** The loop is left by [break] exactly at the first read that succeeds
    after a run of [ValueError]s. *)
Lemma print_mean_temp_break_inv (env : Env) (n : nat) (frame frame' : list Q)
    (st st' : St) :
  iterate n print_mean_temp_body frame env st = (Val (Break, frame'), st') ->
  exists k readings,
    k < n /\
    mlx_getFrame env (reads st + k) = FrameData readings /\
    (forall j, j < k -> mlx_getFrame env (reads st + j) = ReadError ValueError) /\
    frame' = refresh frame readings /\
    st' = {| reads := reads st + S k; ticks := ticks st; trace := trace st |}.
Proof.
  revert st. induction n as [|n IH]; intros st H.
  - cbn in H. unfold ret in H. discriminate.
  - rewrite iterate_S, print_mean_temp_body_cases in H.
    destruct (mlx_getFrame env (reads st)) as [readings|e] eqn:E.
    + inversion H; subst. exists 0, readings.
      rewrite Nat.add_0_r. repeat split; try assumption; try lia.
      unfold after_read. f_equal. lia.
    + destruct e; try discriminate.
      destruct (IH _ H) as (k & readings & Hk & Hd & Hpre & Hf & Hst).
      exists (S k), readings. cbn in Hd, Hst.
      replace (reads st + S k) with (S (reads st + k)) by lia.
      repeat split; try assumption; try lia.
      * intros [|j] Hj; [now rewrite Nat.add_0_r|].
        replace (reads st + S j) with (S (reads st + j)) by lia.
        apply (Hpre j). lia.
      * rewrite Hst. f_equal. cbn. lia.
Qed.

Lemma print_mean_temp_first_success (env : Env) (n : nat) (readings : list Q)
    (frame : list Q) (st : St) (fuel : nat) :
  mlx_getFrame env (reads st + n) = FrameData readings ->
  (forall k, k < n -> mlx_getFrame env (reads st + k) = ReadError ValueError) ->
  n < fuel ->
  iterate fuel print_mean_temp_body frame env st =
  (Val (Break, refresh frame readings),
   {| reads := reads st + S n; ticks := ticks st; trace := trace st |}).
Proof.
  intros Hd Hpre Hfuel.
  apply iterate_left with (n := S n); [|discriminate|lia].
  replace (S n) with (n + 1) by lia.
  rewrite (iterate_add _ n 1 _ _ _ _ _ (print_mean_temp_retries env n frame st Hpre)).
  rewrite iterate_S, print_mean_temp_body_cases. cbn [reads].
  rewrite Hd. unfold after_read. cbn. do 2 f_equal. lia.
Qed.

(** ** Mode 1: [print_mean_temp] *)

Lemma print_mean_temp_unfold (fuel : nat) (env : Env) (st : St) :
  print_mean_temp fuel env st =
  match iterate fuel print_mean_temp_body (np.zeros (24 * 32)) env st with
  | (Val (Break, frame), st') =>
      (Val (np_mean env frame, c_to_f (np_mean env frame)),
       push (Stdout (MeanTemp (np_mean env frame) (c_to_f (np_mean env frame))))
         st')
  | (Val (Continue, _), st') => (OutOfFuel, st')
  | (Exc e, st') => (Exc e, st')
  | (OutOfFuel, st') => (OutOfFuel, st')
  end.
Proof.
  unfold print_mean_temp, bind, while_True.
  destruct (iterate fuel print_mean_temp_body (np.zeros (24 * 32)) env st)
    as [[[[|] frame]|e|] st']; reflexivity.
Qed.

(** C2: the read loop of [print_mean_temp] is left, and the function
    returns, exactly when one of the reads the loop makes succeeds, that
    is when some read succeeds after [ValueError]s only; on a sensor whose
    every read raises [ValueError] the function is still looping after any
    number of rounds, having made as many reads as rounds. *)
Theorem print_mean_temp_terminates_iff (env : Env) :
  ((exists fuel v st, print_mean_temp fuel env st0 = (Val v, st)) <->
   (exists n readings,
      mlx_getFrame env n = FrameData readings /\
      forall k, k < n -> mlx_getFrame env k = ReadError ValueError)) /\
  ((forall k, mlx_getFrame env k = ReadError ValueError) ->
   forall fuel,
     print_mean_temp fuel env st0 =
     (OutOfFuel, {| reads := fuel; ticks := 0; trace := [] |})).
Proof.
  split; [split|].
  - intros (fuel & v & st & H). rewrite print_mean_temp_unfold in H.
    destruct (iterate fuel print_mean_temp_body (np.zeros (24 * 32)) env st0)
      as [[[[|] frame]|e|] st'] eqn:E; try discriminate.
    destruct (print_mean_temp_break_inv _ _ _ _ _ _ E)
      as (k & readings & _ & Hd & Hpre & _).
    exists k, readings. split; [exact Hd | exact Hpre].
  - intros (n & readings & Hd & Hpre).
    exists (S n). rewrite print_mean_temp_unfold.
    rewrite (print_mean_temp_first_success env n readings _ st0 (S n));
      [eauto | exact Hd | exact Hpre | lia].
  - intros Hdead fuel. rewrite print_mean_temp_unfold.
    rewrite print_mean_temp_retries by (intros; apply Hdead).
    reflexivity.
Qed.

Lemma print_mean_temp_terminates_iff_witness :
  (forall k, mlx_getFrame (sample_env dead_sensor false) k = ReadError ValueError) /\
  (forall fuel,
     print_mean_temp fuel (sample_env dead_sensor false) st0 =
     (OutOfFuel, {| reads := fuel; ticks := 0; trace := [] |})) /\
  (exists fuel v st,
     print_mean_temp fuel (sample_env flaky_sensor false) st0 = (Val v, st)).
Proof.
  split; [reflexivity|]. split.
  - apply (proj2 (print_mean_temp_terminates_iff (sample_env dead_sensor false))).
    reflexivity.
  - apply (proj1 (print_mean_temp_terminates_iff (sample_env flaky_sensor false))).
    exists 2, ramp_frame. split; [reflexivity|].
    intros k Hk. destruct k as [|[|k]]; [reflexivity | reflexivity | lia].
Defined.

(** *** The mean *)







(** ** What the script adds to the trace *)

Section EmitsOnly.
Context (P : event -> Prop) (env : Env).

Lemma emits_only_ret {A : Type} (a : A) : emits_only P env (ret a).
Proof. intros st. exists []. split; [reflexivity | constructor]. Qed.

Lemma emits_only_bind {A B : Type} (m : M A) (k : A -> M B) :
  emits_only P env m -> (forall a, emits_only P env (k a)) ->
  emits_only P env (bind m k).
Proof.
  intros Hm Hk st. unfold bind.
  destruct (Hm st) as (n1 & E1 & F1).
  destruct (m env st) as [[a|e|] st1]; cbn [snd] in *.
  - destruct (Hk a st1) as (n2 & E2 & F2).
    exists (n2 ++ n1). split.
    + now rewrite E2, E1, app_assoc.
    + apply Forall_app. now split.
  - now exists n1.
  - now exists n1.
Qed.

Lemma emits_only_emit (e : event) : P e -> emits_only P env (emit e).
Proof.
  intros He st. exists [e]. split; [reflexivity | now constructor].
Qed.

Lemma emits_only_lift {A : Type} (r : exn + A) : emits_only P env (lift r).
Proof.
  intros st. exists []. unfold lift.
  destruct r; (split; [reflexivity | constructor]).
Qed.

Lemma emits_only_getFrame (frame : list Q) : emits_only P env (getFrame frame).
Proof.
  intros st. exists []. unfold getFrame.
  destruct (mlx_getFrame env (reads st)); (split; [reflexivity | constructor]).
Qed.

Lemma emits_only_monotonic : emits_only P env monotonic.
Proof. intros st. exists []. split; [reflexivity | constructor]. Qed.

Lemma emits_only_try_except {A : Type} (body handler : M A) (exc : exn) :
  emits_only P env body -> emits_only P env handler ->
  emits_only P env (try_except body exc handler).
Proof.
  intros Hb Hh st. unfold try_except.
  destruct (Hb st) as (n1 & E1 & F1).
  destruct (body env st) as [[a|e|] st1]; cbn [snd] in *;
    try (now exists n1).
  destruct (exn_eqb e exc); [|now exists n1].
  destruct (Hh st1) as (n2 & E2 & F2).
  exists (n2 ++ n1). split.
  - now rewrite E2, E1, app_assoc.
  - apply Forall_app. now split.
Qed.

Lemma emits_only_iterate {L : Type} (body : L -> M (ctl * L)) (n : nat) (l : L) :
  (forall l, emits_only P env (body l)) ->
  emits_only P env (iterate n body l).
Proof.
  intros Hb. revert l. induction n as [|n IH]; intros l; cbn [iterate].
  - apply emits_only_ret.
  - apply emits_only_bind; [apply Hb|]. intros [[|] l'].
    + apply IH.
    + apply emits_only_ret.
Qed.

Lemma emits_only_while_True {L : Type} (body : L -> M (ctl * L)) (fuel : nat)
    (l : L) :
  (forall l, emits_only P env (body l)) ->
  emits_only P env (while_True fuel body l).
Proof.
  intros Hb st. unfold while_True.
  destruct (emits_only_iterate body fuel l Hb st) as (n1 & E1 & F1).
  destruct (iterate fuel body l env st) as [[[[|] l']|e|] st1]; now exists n1.
Qed.

Lemma emits_only_logger_debug (msg : string) (args : list string) :
  (DEBUG_MODE env = true -> P (Log DEBUG msg args)) ->
  emits_only P env (logger_debug msg args).
Proof.
  intros H st. unfold logger_debug.
  destruct (DEBUG_MODE env).
  - exists [Log DEBUG msg args]. split; [reflexivity | auto].
  - exists []. split; [reflexivity | constructor].
Qed.

Lemma emits_only_logger_info (msg : string) :
  (DEBUG_MODE env = true -> P (Log INFO msg [])) ->
  emits_only P env (logger_info msg).
Proof.
  intros H st. unfold logger_info.
  destruct (DEBUG_MODE env).
  - exists [Log INFO msg []]. split; [reflexivity | auto].
  - exists []. split; [reflexivity | constructor].
Qed.

End EmitsOnly.

Lemma emits_only_ext (P : event -> Prop) (env : Env) {A : Type} (m m' : M A) :
  (forall st, m env st = m' env st) ->
  emits_only P env m' -> emits_only P env m.
Proof.
  intros E H st. rewrite E. apply H.
Qed.

(** The structure of a computation is followed down to its [emit]s. *)
Ltac emits_step :=
  lazymatch goal with
  | |- emits_only _ _ (ret _) => apply emits_only_ret
  | |- emits_only _ _ (bind _ _) => apply emits_only_bind; [|intros ?]
  | |- emits_only _ _ (lift _) => apply emits_only_lift
  | |- emits_only _ _ (getFrame _) => apply emits_only_getFrame
  | |- emits_only _ _ monotonic => apply emits_only_monotonic
  | |- emits_only _ _ (try_except _ _ _) => apply emits_only_try_except
  | |- emits_only _ _ (while_True _ _ _) =>
      apply emits_only_while_True; intros ?
  | |- emits_only _ _ (logger_debug _ _) =>
      apply emits_only_logger_debug; intros ?
  | |- emits_only _ _ (logger_info _) =>
      apply emits_only_logger_info; intros ?
  | |- emits_only _ _ (emit _) => apply emits_only_emit
  | |- emits_only _ _ (fun _ => _) =>
      eapply emits_only_ext; [intros ?; cbv beta; reflexivity|]
  | |- emits_only _ _ (match ?x with _ => _ end) => destruct x eqn:?
  end.

Ltac emits := cbv zeta; repeat emits_step.

Ltac bool_hyps :=
  repeat match goal with
         | H : (_ && _) = true |- _ => apply andb_true_iff in H; destruct H
         | H : (_ && _) = false |- _ => apply andb_false_iff in H; destruct H
         | H : (_ <=? _) = true |- _ => apply Nat.leb_le in H
         | H : (_ <=? _) = false |- _ => apply Nat.leb_gt in H
         end.

Ltac allowed := bool_hyps; split; cbn; auto 6.

Lemma print_mean_temp_emits (env : Env) (folder : string) (fuel : nat) :
  emits_only (script_event 1 folder env) env (print_mean_temp fuel).
Proof.
  unfold print_mean_temp, print_mean_temp_body, print. emits. all: allowed.
Qed.

Lemma simple_pic_emits (env : Env) (folder : string) :
  emits_only (script_event 2 folder env) env (simple_pic folder).
Proof.
  unfold simple_pic. emits. all: allowed.
Qed.

Lemma simple_camera_read_emits (env : Env) (folder : string) (fuel : nat) :
  emits_only (script_event 3 folder env) env (simple_camera_read fuel).
Proof.
  unfold simple_camera_read, simple_camera_read_body, print. emits.
  all: allowed.
Qed.

Lemma interpolated_pic_emits (env : Env) (folder : string) :
  emits_only (script_event 4 folder env) env (interpolated_pic folder).
Proof.
  unfold interpolated_pic. emits. all: allowed.
Qed.

Lemma interpolated_camera_read_emits (env : Env) (folder : string) (fuel : nat) :
  emits_only (script_event 5 folder env) env
    (interpolated_camera_read folder fuel).
Proof.
  unfold interpolated_camera_read, interpolated_camera_read_body, plot_update,
    print.
  emits. all: allowed.
Qed.

Lemma run_mode_emits (env : Env) (mode : nat) (folder : string) (fuel : nat) :
  emits_only (script_event mode folder env) env (run_mode mode folder fuel).
Proof.
  destruct mode as [|[|[|[|[|[|mode]]]]]]; cbn [run_mode].
  - unfold print. emits. allowed.
  - apply emits_only_bind; [apply print_mean_temp_emits | intros; apply emits_only_ret].
  - apply simple_pic_emits.
  - apply simple_camera_read_emits.
  - apply interpolated_pic_emits.
  - apply interpolated_camera_read_emits.
  - unfold print. emits. allowed.
Qed.

(** ** What a snapshot shows *)

Lemma concat_rows_of {A : Type} (rows cols : nat) (a : list A) :
  List.length a = rows * cols -> List.concat (np.rows_of rows cols a) = a.
Proof.
  revert a. induction rows as [|r IH]; intros a Hlen; cbn [np.rows_of List.concat].
  - destruct a; [reflexivity | discriminate].
  - rewrite IH; [apply firstn_skipn|].
    rewrite length_skipn. cbn in Hlen. lia.
Qed.

Lemma reshape_ok {A : Type} (a : list A) :
  List.length a = 24 * 32 ->
  np.reshape a (24, 32) = inr (np.rows_of 24 32 a).
Proof.
  intros H. unfold np.reshape. now rewrite H, Nat.eqb_refl.
Qed.

Lemma Qmin_cases (x y : Q) : Qmin x y = x \/ Qmin x y = y.
Proof.
  unfold Qmin, GenericMinMax.gmin. destruct (x ?= y)%Q; auto.
Qed.

Lemma Qmax_cases (x y : Q) : Qmax x y = x \/ Qmax x y = y.
Proof.
  unfold Qmax, GenericMinMax.gmax. destruct (x ?= y)%Q; auto.
Qed.

Lemma fold_min_spec (xs : list Q) (x : Q) :
  In (fold_left Qmin xs x) (x :: xs) /\
  (forall y, In y (x :: xs) -> (fold_left Qmin xs x <= y)%Q).
Proof.
  revert x. induction xs as [|z xs IH]; intros x; cbn [fold_left].
  - split; [now left|]. intros y [<-|[]]. apply Qle_refl.
  - destruct (IH (Qmin x z)) as [Hin Hle]. split.
    + destruct Hin as [Hin|Hin]; [|now right; right].
      rewrite <- Hin. destruct (Qmin_cases x z) as [->| ->];
        [now left | now right; left].
    + intros y Hy.
      assert (Hm : (fold_left Qmin xs (Qmin x z) <= Qmin x z)%Q)
        by (apply Hle; now left).
      destruct Hy as [<-|[<-|Hy]].
      * eapply Qle_trans; [exact Hm | apply Q.le_min_l].
      * eapply Qle_trans; [exact Hm | apply Q.le_min_r].
      * apply Hle. now right.
Qed.

Lemma fold_max_spec (xs : list Q) (x : Q) :
  In (fold_left Qmax xs x) (x :: xs) /\
  (forall y, In y (x :: xs) -> (y <= fold_left Qmax xs x)%Q).
Proof.
  revert x. induction xs as [|z xs IH]; intros x; cbn [fold_left].
  - split; [now left|]. intros y [<-|[]]. apply Qle_refl.
  - destruct (IH (Qmax x z)) as [Hin Hle]. split.
    + destruct Hin as [Hin|Hin]; [|now right; right].
      rewrite <- Hin. destruct (Qmax_cases x z) as [->| ->];
        [now left | now right; left].
    + intros y Hy.
      assert (Hm : (Qmax x z <= fold_left Qmax xs (Qmax x z))%Q)
        by (apply Hle; now left).
      destruct Hy as [<-|[<-|Hy]].
      * eapply Qle_trans; [apply Q.le_max_l | exact Hm].
      * eapply Qle_trans; [apply Q.le_max_r | exact Hm].
      * apply Hle. now right.
Qed.

(** On an array with an element, [np.min] and [np.max] return an element
    of the array that bounds all the others. *)
Lemma np_min_spec (g : grid) :
  List.concat g <> [] ->
  exists v, np.min g = inr v /\ In v (List.concat g) /\
            forall y, In y (List.concat g) -> (v <= y)%Q.
Proof.
  intros Hne. unfold np.min.
  destruct (List.concat g) as [|x xs]; [congruence|].
  exists (fold_left Qmin xs x).
  destruct (fold_min_spec xs x) as [Hin Hle]. auto.
Qed.

Lemma np_max_spec (g : grid) :
  List.concat g <> [] ->
  exists v, np.max g = inr v /\ In v (List.concat g) /\
            forall y, In y (List.concat g) -> (y <= v)%Q.
Proof.
  intros Hne. unfold np.max.
  destruct (List.concat g) as [|x xs]; [congruence|].
  exists (fold_left Qmax xs x).
  destruct (fold_max_spec xs x) as [Hin Hle]. auto.
Qed.

Lemma frame_not_empty (a : list Q) : List.length a = 24 * 32 -> a <> [].
Proof. intros H ->. discriminate. Qed.

(** Pixel [(r, c)] of the mirrored 24x32 image is reading
    [r * 32 + (31 - c)] of the frame. *)
Lemma mirrored_pixel (buf : list Q) (r c : nat) :
  List.length buf = 24 * 32 -> r < 24 -> c < 32 ->
  entry (np.fliplr (np.rows_of 24 32 buf)) r c = nth_error buf (r * 32 + (31 - c)).
Proof.
  intros Hlen Hr Hc.
  rewrite (fliplr_entry 24 32) by (try apply rows_of_shape; assumption).
  rewrite rows_of_entry by lia. f_equal.
Qed.

(** X5: [simple_pic] with a frame of 768 readings: one read and no retry, the
    image shown is the frame in 24 rows of 32 mirrored left to right, the
    colour range is set to the smallest and the largest reading, and the
    figure is saved last, as [simple_pic.png] in the output folder. *)
Theorem simple_pic_shows_frame (env : Env) (folder : string) (buf : list Q) :
  List.length buf = 768 ->
  mlx_getFrame env 0 = FrameData buf ->
  exists vmin vmax,
    simple_pic folder env st0 =
      (Val tt,
       {| reads := 1; ticks := 0;
          trace := [SaveFig (folder ++ "simple_pic.png"); PltPause;
                    CbarOnMappableChanged; SetClim vmin vmax;
                    SetData (np.fliplr (np.rows_of 24 32 buf));
                    CbarSetLabel; Colorbar;
                    Imshow (np.zeros2 (24, 32)) 0 60;
                    PltSubplots 12 7; SetRefreshRate 2] |}) /\
    In vmin buf /\ In vmax buf /\
    (forall x, In x buf -> (vmin <= x <= vmax)%Q) /\
    (forall r c, r < 24 -> c < 32 ->
       entry (np.fliplr (np.rows_of 24 32 buf)) r c =
       nth_error buf (r * 32 + (31 - c))).
Proof.
  intros Hlen Hread.
  assert (Hlen' : List.length buf = 24 * 32) by exact Hlen.
  assert (Hcat : List.concat (np.rows_of 24 32 buf) = buf)
    by now apply concat_rows_of.
  assert (Hne : List.concat (np.rows_of 24 32 buf) <> [])
    by (rewrite Hcat; now apply frame_not_empty).
  destruct (np_min_spec _ Hne) as (vmin & Hmin & Hmin_in & Hmin_le).
  destruct (np_max_spec _ Hne) as (vmax & Hmax & Hmax_in & Hmax_le).
  rewrite Hcat in *.
  exists vmin, vmax. split; [|split; [|split; [|split]]]; auto.
  - cbv [simple_pic bind emit ret lift getFrame st0].
    cbn [reads ticks trace push after_read after_tick].
    rewrite Hread.
    rewrite refresh_full by (rewrite zeros_length; exact Hlen).
    rewrite (reshape_ok buf Hlen'), Hmin, Hmax. reflexivity.
  - intros r c Hr Hc. now apply mirrored_pixel.
Qed.

Lemma simple_pic_shows_frame_witness :
  List.length ramp_frame = 768 /\
  mlx_getFrame (sample_env good_sensor false) 0 = FrameData ramp_frame /\
  exists vmin vmax,
    simple_pic "/home/pi/snapshots/" (sample_env good_sensor false) st0 =
      (Val tt,
       {| reads := 1; ticks := 0;
          trace := [SaveFig ("/home/pi/snapshots/" ++ "simple_pic.png"); PltPause;
                    CbarOnMappableChanged; SetClim vmin vmax;
                    SetData (np.fliplr (np.rows_of 24 32 ramp_frame));
                    CbarSetLabel; Colorbar;
                    Imshow (np.zeros2 (24, 32)) 0 60;
                    PltSubplots 12 7; SetRefreshRate 2] |}) /\
    In vmin ramp_frame /\ In vmax ramp_frame /\
    (forall x, In x ramp_frame -> (vmin <= x <= vmax)%Q) /\
    (forall r c, r < 24 -> c < 32 ->
       entry (np.fliplr (np.rows_of 24 32 ramp_frame)) r c =
       nth_error ramp_frame (r * 32 + (31 - c))).
Proof.
  assert (H1 : List.length ramp_frame = 768) by (vm_compute; reflexivity).
  assert (H2 : mlx_getFrame (sample_env good_sensor false) 0 = FrameData ramp_frame)
    by reflexivity.
  split; [exact H1|]. split; [exact H2|].
  exact (simple_pic_shows_frame _ "/home/pi/snapshots/" ramp_frame H1 H2).
Defined.

(** ** The script as a whole *)

(** The module-level statements, then the mode. *)
Lemma main_cases (mode fuel : nat) (env : Env) (st : St) :
  main mode fuel env st =
  match cfg_get (config env) "FILEPATHS" "output_folder" with
  | inl e => (Exc e, after_startup env st)
  | inr folder =>
      run_mode mode folder fuel env
        (push MLXInit (push (I2CInit 800000) (after_startup env st)))
  end.
Proof.
  unfold main, module_init, logging_setup, after_startup, startup_trace,
    bind, logger_debug, lift, emit, ret, push.
  destruct (DEBUG_MODE env);
    destruct (cfg_get (config env) "FILEPATHS" "output_folder"); reflexivity.
Qed.

(** X1: When [config.get] raises (no section [FILEPATHS], no option
    [output_folder]), the script ends with that exception in every mode,
    before the bus and the camera are set up: no frame is read, the clock
    is not read, and the trace is that of the start-up alone: the logger
    set up, the configuration file read and, in debug mode, the two debug
    log records. *)
Theorem missing_output_folder_is_fatal (env : Env) (mode fuel : nat) (e : exn) :
  cfg_get (config env) "FILEPATHS" "output_folder" = inl e ->
  fst (main mode fuel env st0) = Exc e /\
  reads (snd (main mode fuel env st0)) = 0 /\
  ticks (snd (main mode fuel env st0)) = 0 /\
  trace (snd (main mode fuel env st0)) = startup_trace env /\
  Forall (fun ev =>
            (exists msg args, ev = Log DEBUG msg args) \/
            (exists file lvl, ev = LoggingBasicConfig file lvl) \/
            (exists name, ev = LoggerDisabled name) \/
            (exists file, ev = ConfigRead file))
         (trace (snd (main mode fuel env st0))).
Proof.
  intros H. rewrite main_cases, H. unfold after_startup, startup_trace.
  destruct (DEBUG_MODE env); cbn;
    (split; [reflexivity|]); (split; [reflexivity|]); (split; [reflexivity|]);
    (split; [reflexivity|]);
    repeat (apply Forall_cons;
            [first [ left; solve [eauto]
                   | right; left; solve [eauto]
                   | right; right; left; solve [eauto]
                   | right; right; right; solve [eauto] ]|]);
    apply Forall_nil.
Qed.

Lemma missing_output_folder_is_fatal_witness :
  cfg_get (config (with_config (sample_env good_sensor false) empty_config))
    "FILEPATHS" "output_folder" = inl NoSectionError /\
  fst (main 2 10 (with_config (sample_env good_sensor false) empty_config) st0) =
    Exc NoSectionError /\
  reads (snd (main 2 10 (with_config (sample_env good_sensor false) empty_config) st0))
    = 0.
Proof.
  assert (H : cfg_get (config (with_config (sample_env good_sensor false) empty_config))
                "FILEPATHS" "output_folder" = inl NoSectionError) by reflexivity.
  pose proof (missing_output_folder_is_fatal _ 2 10 NoSectionError H)
    as (A & B & _).
  split; [exact H|]. split; [exact A | exact B].
Defined.

(** X2: A value of [mode] outside 1..5: after the start-up the script sets
    the camera up, prints "Incorrect or missing mode." and returns.  It
    reads no frame and no clock, saves no figure and dumps no statistics:
    the only files it touches are those of the start-up, the configuration
    file it reads and, with [DEBUG_MODE] off, the log file
    [pithermcam.log] the logger set-up opens. *)
Theorem unknown_mode_only_prints (env : Env) (mode fuel : nat) (folder : string) :
  cfg_get (config env) "FILEPATHS" "output_folder" = inr folder ->
  mode = 0 \/ 5 < mode ->
  fst (main mode fuel env st0) = Val tt /\
  reads (snd (main mode fuel env st0)) = 0 /\
  ticks (snd (main mode fuel env st0)) = 0 /\
  trace (snd (main mode fuel env st0)) =
    Stdout IncorrectMode :: MLXInit :: I2CInit 800000 :: startup_trace env /\
  file_paths (trace (snd (main mode fuel env st0))) =
    (if DEBUG_MODE env then ["sequential_config.ini"]
     else ["sequential_config.ini"; "pithermcam.log"]).
Proof.
  intros H Hmode. rewrite main_cases, H.
  assert (Hrun : forall st, run_mode mode folder fuel env st =
                            (Val tt, push (Stdout IncorrectMode) st)).
  { intros st. destruct Hmode as [->|Hgt]; [reflexivity|].
    do 6 (destruct mode as [|mode]; [lia|]). reflexivity. }
  rewrite Hrun. unfold after_startup, startup_trace.
  destruct (DEBUG_MODE env); cbn; repeat split; reflexivity.
Qed.

Lemma unknown_mode_only_prints_witness :
  cfg_get (config (sample_env good_sensor false)) "FILEPATHS" "output_folder" =
    inr "/home/pi/snapshots/" /\
  (7 = 0 \/ 5 < 7) /\
  fst (main 7 10 (sample_env good_sensor false) st0) = Val tt /\
  file_paths (trace (snd (main 7 10 (sample_env good_sensor false) st0))) =
    ["sequential_config.ini"; "pithermcam.log"].
Proof.
  assert (H1 : cfg_get (config (sample_env good_sensor false))
                 "FILEPATHS" "output_folder" = inr "/home/pi/snapshots/")
    by reflexivity.
  assert (H2 : 7 = 0 \/ 5 < 7) by (right; lia).
  pose proof (unknown_mode_only_prints _ 7 10 _ H1 H2) as (A & _ & _ & _ & B).
  split; [exact H1|]. split; [exact H2|]. split; [exact A | exact B].
Defined.

(** The events of a whole run of the script are those its mode may emit. *)
Lemma main_events (env : Env) (mode fuel : nat) (folder : string) :
  cfg_get (config env) "FILEPATHS" "output_folder" = inr folder ->
  Forall (script_event mode folder env) (trace (snd (main mode fuel env st0))) /\
  exists new,
    trace (snd (main mode fuel env st0)) =
    new ++ MLXInit :: I2CInit 800000 :: startup_trace env.
Proof.
  intros H. rewrite main_cases, H.
  match goal with
  | |- context [run_mode mode folder fuel env ?st] =>
      destruct (run_mode_emits env mode folder fuel st) as (new & E & F)
  end.
  rewrite E. split.
  - apply Forall_app. split; [exact F|].
    unfold after_startup, startup_trace.
    destruct (DEBUG_MODE env) eqn:D; cbn; repeat constructor; cbn; auto.
  - exists new. cbn. now rewrite app_nil_r.
Qed.

(** X3: With [DEBUG_MODE] off the script writes no log record, whatever the
    mode, the sensor and the configuration: its logger calls are all at
    the levels debug and info, below the WARNING threshold. *)
Theorem no_log_record_without_debug (env : Env) (mode fuel : nat)
    (lvl : level) (msg : string) (args : list string) :
  DEBUG_MODE env = false ->
  ~ In (Log lvl msg args) (trace (snd (main mode fuel env st0))).
Proof.
  intros D Hin.
  destruct (cfg_get (config env) "FILEPATHS" "output_folder") as [e|folder] eqn:C.
  - rewrite main_cases, C in Hin. unfold after_startup, startup_trace in Hin.
    rewrite D in Hin. cbn in Hin. intuition discriminate.
  - destruct (main_events env mode fuel folder C) as [F _].
    rewrite Forall_forall in F. destruct (F _ Hin) as [HL _].
    cbn in HL. congruence.
Qed.

Lemma no_log_record_without_debug_witness :
  DEBUG_MODE (sample_env flaky_sensor true) = false /\
  ~ In (Log INFO "Printing and dumping profiling stats" [])
       (trace (snd (main 5 40 (sample_env flaky_sensor true) st0))).
Proof.
  split; [reflexivity|].
  apply (no_log_record_without_debug (sample_env flaky_sensor true) 5 40).
  reflexivity.
Defined.

Lemma in_file_paths (p : string) (tr : list event) :
  In p (file_paths tr) ->
  (exists lvl, In (LoggingBasicConfig (Some p) lvl) tr) \/
  In (ConfigRead p) tr \/
  In (SaveFig p) tr \/ In (DumpStats p) tr \/ In (StatsLoad p) tr.
Proof.
  unfold file_paths. rewrite in_flat_map. intros (e & He & Hp).
  destruct e;
    try match goal with f : option string |- _ => destruct f end;
    cbn in Hp; try contradiction; destruct Hp as [<-|[]]; eauto 6.
Qed.

(** X4: Every file the script opens, writes or reads is the configuration
    file [sequential_config.ini], the log file [pithermcam.log], or the
    configured output folder followed by a fixed name that goes with the
    mode: [simple_pic.png] in mode 2, [interp_pic.png] in mode 4,
    [profiling_stats.prof] in mode 5 and only with [profiling] set.  The
    configuration file is read in every run, and the log file is opened
    in every run with [DEBUG_MODE] off and in no run with it on.  Modes 1
    and 3 touch no other file. *)
Theorem files_are_in_output_folder (env : Env) (mode fuel : nat)
    (folder : string) :
  cfg_get (config env) "FILEPATHS" "output_folder" = inr folder ->
  (forall p,
     In p (file_paths (trace (snd (main mode fuel env st0)))) ->
     p = "sequential_config.ini" \/
     (DEBUG_MODE env = false /\ p = "pithermcam.log") \/
     (mode = 2 /\ p = (folder ++ "simple_pic.png")%string) \/
     (mode = 4 /\ p = (folder ++ "interp_pic.png")%string) \/
     (mode = 5 /\ profiling env = true /\
      p = (folder ++ "profiling_stats.prof")%string)) /\
  In "sequential_config.ini" (file_paths (trace (snd (main mode fuel env st0)))) /\
  (DEBUG_MODE env = false ->
   In "pithermcam.log" (file_paths (trace (snd (main mode fuel env st0))))).
Proof.
  intros C. destruct (main_events env mode fuel folder C) as [F (new & E)].
  split; [|split].
  - intros p Hin. rewrite Forall_forall in F.
    destruct (in_file_paths _ _ Hin) as [(lvl & H)|[H|[H|[H|H]]]];
      destruct (F _ H) as [_ HF]; cbn in HF; tauto.
  - rewrite E. unfold file_paths. rewrite flat_map_app. apply in_or_app. right.
    unfold startup_trace. destruct (DEBUG_MODE env); cbn; auto.
  - intros D. rewrite E. unfold file_paths. rewrite flat_map_app.
    apply in_or_app. right.
    unfold startup_trace. rewrite D. cbn. auto.
Qed.

Lemma files_are_in_output_folder_witness :
  cfg_get (config (sample_env good_sensor true)) "FILEPATHS" "output_folder" =
    inr "/home/pi/snapshots/" /\
  file_paths (trace (snd (main 5 20 (sample_env good_sensor true) st0))) =
    ["/home/pi/snapshots/profiling_stats.prof";
     "/home/pi/snapshots/profiling_stats.prof";
     "sequential_config.ini"; "pithermcam.log"] /\
  In "sequential_config.ini"
     (file_paths (trace (snd (main 5 20 (sample_env good_sensor true) st0)))).
Proof.
  assert (C : cfg_get (config (sample_env good_sensor true))
                "FILEPATHS" "output_folder" = inr "/home/pi/snapshots/")
    by reflexivity.
  split; [exact C|]. split; [vm_compute; reflexivity|].
  exact (proj1 (proj2 (files_are_in_output_folder _ 5 20 _ C))).
Defined.

(** ** The snapshot modes *)

Ltac step_state :=
  cbv beta iota zeta;
  cbn [reads ticks trace push after_read after_tick frame t_array last_update
       count fst snd].

Ltac case_on t := destruct t eqn:?; step_state.

(** X6: [simple_pic] and [interpolated_pic] read the sensor once and never read
    the clock; the figure is saved exactly when the function returns, and
    when it ends with an exception no file has been written. *)
Theorem snapshot_saved_iff_returns (env : Env) (folder : string) :
  (reads (snd (simple_pic folder env st0)) = 1 /\
   ticks (snd (simple_pic folder env st0)) = 0 /\
   match fst (simple_pic folder env st0) with
   | Val _ => file_paths (trace (snd (simple_pic folder env st0))) =
              [(folder ++ "simple_pic.png")%string]
   | Exc _ => file_paths (trace (snd (simple_pic folder env st0))) = []
   | OutOfFuel => False
   end) /\
  (reads (snd (interpolated_pic folder env st0)) = 1 /\
   ticks (snd (interpolated_pic folder env st0)) = 0 /\
   match fst (interpolated_pic folder env st0) with
   | Val _ => file_paths (trace (snd (interpolated_pic folder env st0))) =
              [(folder ++ "interp_pic.png")%string]
   | Exc _ => file_paths (trace (snd (interpolated_pic folder env st0))) = []
   | OutOfFuel => False
   end).
Proof.
  split.
  - cbv [simple_pic bind emit ret lift getFrame st0]. step_state.
    case_on (mlx_getFrame env 0); [|auto].
    case_on (np.reshape (refresh (np.zeros (24 * 32)) readings) (24, 32));
      [auto|].
    case_on (np.min l); [auto|].
    case_on (np.max l); auto.
  - cbv [interpolated_pic bind emit ret lift getFrame logger_debug st0].
    step_state.
    case_on (DEBUG_MODE env);
      (case_on (mlx_getFrame env 0); [|auto]);
      (case_on (np.reshape (refresh (np.zeros (24 * 32)) readings) (24, 32));
       [auto|]);
      (case_on (np.min (ndimage_zoom env (np.fliplr l) 10)); [auto|]);
      (case_on (np.max (ndimage_zoom env (np.fliplr l) 10)); auto).
Qed.

(** X7: In [simple_pic], [interpolated_pic] and [interpolated_camera_read] a
    failed frame read is not retried: whatever the exception, [ValueError]
    included, the function ends with it after that one read, and has
    written no file and printed no frame rate. *)
Theorem failed_read_is_fatal_without_try (env : Env) (folder : string)
    (fuel : nat) (e : exn) :
  mlx_getFrame env 0 = ReadError e ->
  (fst (simple_pic folder env st0) = Exc e /\
   reads (snd (simple_pic folder env st0)) = 1 /\
   file_paths (trace (snd (simple_pic folder env st0))) = []) /\
  (fst (interpolated_pic folder env st0) = Exc e /\
   reads (snd (interpolated_pic folder env st0)) = 1 /\
   file_paths (trace (snd (interpolated_pic folder env st0))) = []) /\
  (fst (interpolated_camera_read folder (S fuel) env st0) = Exc e /\
   reads (snd (interpolated_camera_read folder (S fuel) env st0)) = 1 /\
   file_paths (trace (snd (interpolated_camera_read folder (S fuel) env st0))) = [] /\
   frame_rates (trace (snd (interpolated_camera_read folder (S fuel) env st0))) = []).
Proof.
  intros H. split; [|split].
  - cbv [simple_pic bind emit ret lift getFrame st0]. step_state.
    rewrite H. auto.
  - cbv [interpolated_pic bind emit ret lift getFrame logger_debug st0].
    step_state. destruct (DEBUG_MODE env); step_state; rewrite H; auto.
  - unfold interpolated_camera_read. cbv zeta. unfold while_True, bind at 1.
    cbv [bind emit ret st0]. step_state.
    destruct (profiling env); step_state;
      rewrite iterate_S;
      cbv [interpolated_camera_read_body plot_update bind emit ret lift
           getFrame monotonic]; step_state;
      rewrite H; step_state; auto.
Qed.

Lemma failed_read_is_fatal_without_try_witness :
  mlx_getFrame (sample_env flaky_sensor false) 0 = ReadError ValueError /\
  fst (simple_pic "/home/pi/snapshots/" (sample_env flaky_sensor false) st0) =
    Exc ValueError /\
  fst (interpolated_pic "/home/pi/snapshots/" (sample_env flaky_sensor false) st0) =
    Exc ValueError /\
  fst (interpolated_camera_read "/home/pi/snapshots/" 8
         (sample_env flaky_sensor false) st0) = Exc ValueError.
Proof.
  assert (H : mlx_getFrame (sample_env flaky_sensor false) 0 = ReadError ValueError)
    by reflexivity.
  pose proof (failed_read_is_fatal_without_try
                (sample_env flaky_sensor false) "/home/pi/snapshots/" 7
                ValueError H) as (A & B & C).
  split; [exact H|]. split; [exact (proj1 A)|]. split; [exact (proj1 B)|].
  exact (proj1 C).
Defined.

(** ** Mode 1: exceptions other than [ValueError] *)

(** X8: [print_mean_temp] retries on [ValueError] only: when, after [n] such
    failures, the read raises another exception, the function ends with
    it after [n + 1] reads and has printed nothing. *)
Theorem print_mean_temp_other_error (env : Env) (n fuel : nat) (e : exn) :
  (forall k, k < n -> mlx_getFrame env k = ReadError ValueError) ->
  mlx_getFrame env n = ReadError e ->
  e <> ValueError ->
  n < fuel ->
  print_mean_temp fuel env st0 =
  (Exc e, {| reads := S n; ticks := 0; trace := [] |}).
Proof.
  intros Hpre He Hne Hfuel. rewrite print_mean_temp_unfold.
  assert (E : iterate fuel print_mean_temp_body (np.zeros (24 * 32)) env st0 =
              (Exc e, {| reads := S n; ticks := 0; trace := [] |})).
  { apply iterate_left with (n := S n); [|discriminate|lia].
    replace (S n) with (n + 1) by lia.
    rewrite (iterate_add _ n 1 _ _ _ _ _
               (print_mean_temp_retries env n _ st0 Hpre)).
    rewrite iterate_S, print_mean_temp_body_cases. cbn [reads st0 Nat.add].
    rewrite He.
    destruct e; try congruence; unfold after_read; cbn; do 2 f_equal; lia. }
  now rewrite E.
Qed.

Lemma print_mean_temp_other_error_witness :
  (forall k, k < 2 ->
     mlx_getFrame (sample_env failing_sensor false) k = ReadError ValueError) /\
  mlx_getFrame (sample_env failing_sensor false) 2 = ReadError RuntimeError /\
  RuntimeError <> ValueError /\
  2 < 5 /\
  print_mean_temp 5 (sample_env failing_sensor false) st0 =
  (Exc RuntimeError, {| reads := 3; ticks := 0; trace := [] |}).
Proof.
  assert (H1 : forall k, k < 2 ->
            mlx_getFrame (sample_env failing_sensor false) k = ReadError ValueError).
  { intros k Hk. destruct k as [|[|k]]; [reflexivity | reflexivity | lia]. }
  assert (H2 : mlx_getFrame (sample_env failing_sensor false) 2 =
               ReadError RuntimeError) by reflexivity.
  assert (H3 : RuntimeError <> ValueError) by discriminate.
  assert (H4 : 2 < 5) by lia.
  split; [exact H1|]. split; [exact H2|]. split; [exact H3|]. split; [exact H4|].
  exact (print_mean_temp_other_error _ 2 5 RuntimeError H1 H2 H3 H4).
Defined.

(** ** Mode 3: [simple_camera_read] *)

(** One round, on a frame buffer of 768 elements. *)
Lemma simple_camera_read_body_cases (env : Env) (frame ta : list Q) (st : St) :
  List.length frame = 24 * 32 ->
  match mlx_getFrame env (reads st) with
  | ReadError ValueError =>
      simple_camera_read_body (24, 32) (frame, ta) env st =
      (Val (Continue, (frame, ta)), after_read (after_tick st))
  | ReadError e =>
      simple_camera_read_body (24, 32) (frame, ta) env st =
      (Exc e, after_read (after_tick st))
  | FrameData readings =>
      let frame' := refresh frame readings in
      let ta' := ta ++ [(time_monotonic env (S (ticks st)) -
                         time_monotonic env (ticks st))%Q] in
      exists vmin vmax,
        simple_camera_read_body (24, 32) (frame, ta) env st =
        (Val (Continue, (frame', ta')),
         push (Stdout (SampleRate ta'))
           (after_tick
              (push PltPause
                 (push CbarOnMappableChanged
                    (push (SetClim vmin vmax)
                       (push (SetData (np.fliplr (np.rows_of 24 32 frame')))
                          (after_read (after_tick st))))))))
  end.
Proof.
  intros Hlen.
  cbv [simple_camera_read_body try_except bind emit ret lift getFrame monotonic
       print].
  step_state.
  destruct (mlx_getFrame env (reads st)) as [readings|e]; step_state.
  - assert (Hl : List.length (refresh frame readings) = 24 * 32)
      by (now rewrite refresh_length).
    assert (Hne : List.concat (np.rows_of 24 32 (refresh frame readings)) <> [])
      by (rewrite concat_rows_of by exact Hl; now apply frame_not_empty).
    destruct (np_min_spec _ Hne) as (vmin & Hmin & _).
    destruct (np_max_spec _ Hne) as (vmax & Hmax & _).
    exists vmin, vmax.
    rewrite (reshape_ok _ Hl). step_state. rewrite Hmin. step_state.
    rewrite Hmax. reflexivity.
  - destruct e; reflexivity.
Qed.

Lemma simple_camera_read_unfold (fuel : nat) (env : Env) (st : St) :
  simple_camera_read fuel env st =
  match iterate fuel (simple_camera_read_body (24, 32))
          (np.zeros (24 * 32), []) env
          (push CbarSetLabel
             (push Colorbar
                (push (Imshow (np.zeros2 (24, 32)) 0 60)
                   (push (PltSubplots 12 7)
                      (push PltIon (push (SetRefreshRate 8) st))))))
  with
  | (Val (Break, _), st') => (Val tt, st')
  | (Val (Continue, _), st') => (OutOfFuel, st')
  | (Exc e, st') => (Exc e, st')
  | (OutOfFuel, st') => (OutOfFuel, st')
  end.
Proof.
  unfold simple_camera_read. cbv zeta. unfold while_True.
  cbv [bind emit ret].
  match goal with
  | |- context [iterate fuel ?b ?l env ?s] =>
      destruct (iterate fuel b l env s) as [[[[|] l']|e|] st']
  end; reflexivity.
Qed.

(** The loop never breaks; it ends only when a read raises an exception
    other than [ValueError]. *)
Lemma simple_camera_read_loop (env : Env) (n : nat) :
  forall (frame ta : list Q) (st : St),
    List.length frame = 24 * 32 ->
    match iterate n (simple_camera_read_body (24, 32)) (frame, ta) env st with
    | (Val (Continue, (frame', _)), st') =>
        reads st' = reads st + n /\ List.length frame' = 24 * 32
    | (Val (Break, _), _) => False
    | (Exc e, st') =>
        e <> ValueError /\
        exists k, k < n /\ mlx_getFrame env (reads st + k) = ReadError e /\
                  reads st' = reads st + S k
    | (OutOfFuel, _) => False
    end.
Proof.
  induction n as [|n IH]; intros frame ta st Hlen.
  - cbn. split; [lia | exact Hlen].
  - rewrite iterate_S.
    pose proof (simple_camera_read_body_cases env frame ta st Hlen) as B.
    destruct (mlx_getFrame env (reads st)) as [readings|e] eqn:R.
    + cbv zeta in B. destruct B as (vmin & vmax & ->).
      match goal with
      | |- context [iterate n _ (?f, ?t) env ?s] =>
          specialize (IH f t s); destruct (iterate n _ (f, t) env s)
            as [[[[|] [f' t']]|e'|] st']
      end; cbn [reads push after_read after_tick] in IH;
        rewrite ?refresh_length in IH; specialize (IH Hlen); try exact IH.
      * destruct IH as [Hr Hl]. split; [lia | exact Hl].
      * destruct IH as (Hne & k & Hk & Hg & Hr). split; [exact Hne|].
        exists (S k). split; [lia|]. split.
        -- rewrite <- Hg. f_equal. lia.
        -- lia.
    + assert (Hcase : e = ValueError \/ e <> ValueError)
        by (destruct e; auto; right; discriminate).
      destruct Hcase as [->|Hne].
      * rewrite B.
        specialize (IH frame ta (after_read (after_tick st)) Hlen).
        destruct (iterate n _ (frame, ta) env (after_read (after_tick st)))
          as [[[[|] [f' t']]|e'|] st']; cbn [reads after_read after_tick] in IH;
          try exact IH.
        -- destruct IH as [Hr Hl]. split; [lia | exact Hl].
        -- destruct IH as (Hne & k & Hk & Hg & Hr). split; [exact Hne|].
           exists (S k). split; [lia|]. split.
           ++ rewrite <- Hg. f_equal. lia.
           ++ lia.
      * assert (E : simple_camera_read_body (24, 32) (frame, ta) env st =
                    (Exc e, after_read (after_tick st)))
          by (destruct e; try congruence; exact B).
        rewrite E. split; [exact Hne|].
        exists 0. rewrite Nat.add_0_r. cbn. repeat split; try lia. exact R.
Qed.

(** X11: [simple_camera_read] never returns.  After any number of rounds it is
    either still looping, with one frame read per round, or it has ended
    with an exception that a frame read raised and that is not
    [ValueError]. *)
Theorem simple_camera_read_never_returns (env : Env) (fuel : nat) :
  match fst (simple_camera_read fuel env st0) with
  | Val _ => False
  | Exc e =>
      e <> ValueError /\
      exists k, k < fuel /\ mlx_getFrame env k = ReadError e /\
                reads (snd (simple_camera_read fuel env st0)) = S k
  | OutOfFuel => reads (snd (simple_camera_read fuel env st0)) = fuel
  end.
Proof.
  rewrite simple_camera_read_unfold.
  match goal with
  | |- context [iterate fuel _ (?f, ?t) env ?s] =>
      pose proof (simple_camera_read_loop env fuel f t s (zeros_length _)) as H;
        destruct (iterate fuel _ (f, t) env s) as [[[[|] [f' t']]|e'|] st']
  end; cbn [fst snd]; cbn [reads push st0 Nat.add] in H.
  - tauto.
  - contradiction.
  - exact H.
  - contradiction.
Qed.

Lemma timings_S (env : Env) (n : nat) :
  timings env (S n) =
  timings env n ++
  [(time_monotonic env (2 * n + 1) - time_monotonic env (2 * n))%Q].
Proof.
  unfold timings. rewrite seq_S, map_app. reflexivity.
Qed.

Lemma timings_length (env : Env) (n : nat) : List.length (timings env n) = n.
Proof. unfold timings. now rewrite length_map, length_seq. Qed.

(** Rounds [m], ..., [m + n - 1] of the loop when each of their reads
    succeeds: every round appends its duration to [t_array] and prints the
    rate over the whole of [t_array]. *)
Lemma simple_camera_read_rounds (env : Env) (n : nat) :
  forall (m : nat) (frame : list Q) (st : St),
    List.length frame = 24 * 32 ->
    reads st = m -> ticks st = 2 * m ->
    (forall k, k < n -> exists readings,
         mlx_getFrame env (m + k) = FrameData readings) ->
    exists frame' st',
      iterate n (simple_camera_read_body (24, 32)) (frame, timings env m) env st =
        (Val (Continue, (frame', timings env (m + n))), st') /\
      reads st' = m + n /\ ticks st' = 2 * (m + n) /\
      sample_rates (trace st') =
        map (timings env) (rev (seq (S m) n)) ++ sample_rates (trace st).
Proof.
  induction n as [|n IH]; intros m frame st Hlen Hr Ht Hok.
  - exists frame, st. cbn. rewrite Nat.add_0_r. repeat split; lia.
  - rewrite iterate_S.
    pose proof (simple_camera_read_body_cases env frame (timings env m) st Hlen)
      as B.
    destruct (Hok 0 ltac:(lia)) as (readings & R).
    rewrite Nat.add_0_r, <- Hr in R. rewrite R in B. cbv zeta in B.
    destruct B as (vmin & vmax & ->).
    rewrite Ht. replace (S (2 * m)) with (2 * m + 1) by lia.
    rewrite <- timings_S.
    match goal with
    | |- context [iterate n _ (?f, _) env ?s] =>
        destruct (IH (S m) f s) as (frame' & st' & E & Hr' & Ht' & Hs)
    end.
    + now rewrite refresh_length.
    + cbn. lia.
    + cbn. lia.
    + intros k Hk. destruct (Hok (S k) ltac:(lia)) as (rd & Hrd).
      exists rd. rewrite <- Hrd. f_equal. lia.
    + exists frame', st'. rewrite E.
      replace (S m + n) with (m + S n) in * by lia.
      repeat split; try lia.
      rewrite Hs. cbn [seq rev map]. rewrite map_app, <- app_assoc.
      reflexivity.
Qed.

(** X12: On a sensor whose reads all succeed, [simple_camera_read] is still
    looping after any number [fuel] of rounds, with [fuel] frames read and
    the clock read twice a round; [t_array] is never trimmed: the [k]-th
    sample-rate line is computed over all the [k] rounds so far. *)
Theorem simple_camera_read_keeps_all_samples (env : Env) (fuel : nat) :
  (forall k, k < fuel -> exists readings, mlx_getFrame env k = FrameData readings) ->
  fst (simple_camera_read fuel env st0) = OutOfFuel /\
  reads (snd (simple_camera_read fuel env st0)) = fuel /\
  ticks (snd (simple_camera_read fuel env st0)) = 2 * fuel /\
  sample_rates (trace (snd (simple_camera_read fuel env st0))) =
    map (timings env) (rev (seq 1 fuel)) /\
  Forall2 (fun k ta => List.length ta = k) (rev (seq 1 fuel))
    (sample_rates (trace (snd (simple_camera_read fuel env st0)))).
Proof.
  intros Hok. rewrite simple_camera_read_unfold.
  match goal with
  | |- context [iterate fuel _ (?f, _) env ?s] =>
      destruct (simple_camera_read_rounds env fuel 0 f s)
        as (frame' & st' & E & Hr & Ht & Hs)
  end; try reflexivity; try apply zeros_length; try exact Hok.
  change (@nil Q) with (timings env 0). rewrite E. cbn [fst snd].
  cbn in Hs. rewrite app_nil_r in Hs.
  repeat split; try assumption.
  rewrite Hs. clear. induction (rev (seq 1 fuel)) as [|k ks IH]; cbn [map].
  - constructor.
  - constructor; [apply timings_length | exact IH].
Qed.

Lemma simple_camera_read_keeps_all_samples_witness :
  (forall k, k < 12 -> exists readings,
       mlx_getFrame (sample_env good_sensor false) k = FrameData readings) /\
  fst (simple_camera_read 12 (sample_env good_sensor false) st0) = OutOfFuel /\
  List.length
    (hd [] (sample_rates
              (trace (snd (simple_camera_read 12 (sample_env good_sensor false) st0)))))
  = 12.
Proof.
  assert (H : forall k, k < 12 -> exists readings,
              mlx_getFrame (sample_env good_sensor false) k = FrameData readings)
    by (intros k _; exists ramp_frame; reflexivity).
  pose proof (simple_camera_read_keeps_all_samples
                (sample_env good_sensor false) 12 H) as (A & _ & _ & B & _).
  split; [exact H|]. split; [exact A|].
  rewrite B. cbn [seq rev app map hd]. apply timings_length.
Defined.

(** ** Mode 5: [interpolated_camera_read] *)

Ltac break_iff :=
  split;
  [ let HB := fresh in intros HB; first [discriminate HB | auto]
  | let Hf := fresh in
    let Hp := fresh in
    let Hc := fresh in
    intros (Hf & Hp & Hc);
    first [reflexivity | discriminate Hf | congruence | lia] ].

Ltac round_done :=
  bool_hyps;
  (split; [reflexivity|]); (split; [reflexivity|]);
  (split; [eexists; split; reflexivity|]);
  (split; [reflexivity|]); (split; [reflexivity|]); (split; [reflexivity|]);
  (split; [break_iff|]); split; reflexivity.

Ltac round_failed :=
  (split; [reflexivity|]); (split; [reflexivity|]); (split; [reflexivity|]);
  eauto 10.

(** What one round of the loop does. *)
Lemma interpolated_camera_read_body_spec (folder : string) (env : Env)
    (l : icr_vars) (st : St) :
  let t1 := time_monotonic env (ticks st) in
  let t2 := time_monotonic env (S (ticks st)) in
  let full := Qgtb (t1 - last_update l) 5 in
  let ta := t_array l ++ [(t2 - t1)%Q] in
  match interpolated_camera_read_body folder 5 (24, 32) 10 l env st with
  | (Val (c, l'), st') =>
      reads st' = S (reads st) /\ ticks st' = S (S (ticks st)) /\
      (exists readings, mlx_getFrame env (reads st) = FrameData readings /\
                        frame l' = refresh (frame l) readings) /\
      t_array l' = (if 10 <? List.length ta then tl ta else ta) /\
      last_update l' = (if full then t1 else last_update l) /\
      count l' = (if full then count l + 1 else count l) /\
      (c = Break <-> full = true /\ profiling env = true /\ 20 <= count l + 1) /\
      frame_rates (trace st') =
        (if full then [t_array l'] else []) ++ frame_rates (trace st) /\
      stats_dumps (trace st') =
        match c with
        | Break => [(folder ++ "profiling_stats.prof")%string]
        | Continue => []
        end ++ stats_dumps (trace st)
  | (Exc e, st') =>
      reads st' = S (reads st) /\
      frame_rates (trace st') = frame_rates (trace st) /\
      stats_dumps (trace st') = stats_dumps (trace st) /\
      (mlx_getFrame env (reads st) = ReadError e \/
       exists readings,
         mlx_getFrame env (reads st) = FrameData readings /\
         (np.reshape (refresh (frame l) readings) (24, 32) = inl e \/
          exists g,
            np.reshape (refresh (frame l) readings) (24, 32) = inr g /\
            (np.min (ndimage_zoom env (np.fliplr g) 10) = inl e \/
             np.max (ndimage_zoom env (np.fliplr g) 10) = inl e)))
  | (OutOfFuel, _) => False
  end.
Proof.
  cbv [interpolated_camera_read_body plot_update bind emit ret lift getFrame
       monotonic print logger_info].
  step_state.
  case_on (mlx_getFrame env (reads st)); [|round_failed].
  case_on (np.reshape (refresh (frame l) readings) (24, 32)); [round_failed|].
  case_on (Qgtb (time_monotonic env (ticks st) - last_update l) 5).
  - case_on (np.min (ndimage_zoom env (np.fliplr l0) 10)); [round_failed|].
    case_on (np.max (ndimage_zoom env (np.fliplr l0) 10)); [round_failed|].
    case_on (profiling env && (20 <=? count l + 1)).
    + case_on (DEBUG_MODE env); round_done.
    + round_done.
  - round_done.
Qed.

(** The invariant rule for all the ways a loop can go: [I] is kept by the
    rounds that go on, and [R] holds of the outcome. *)
Lemma iterate_outcome {L : Type} (body : L -> M (ctl * L)) (env : Env)
    (I : L -> St -> Prop) (R : res (ctl * L) -> St -> Prop) :
  (forall l st, I l st -> R (Val (Continue, l)) st) ->
  (forall l st, I l st ->
     match body l env st with
     | (Val (Continue, l'), st') => I l' st'
     | (r, st') => R r st'
     end) ->
  forall n l st,
    I l st ->
    R (fst (iterate n body l env st)) (snd (iterate n body l env st)).
Proof.
  intros H0 Hstep. induction n as [|n IH]; intros l st HI.
  - cbn. now apply H0.
  - rewrite iterate_S. specialize (Hstep l st HI).
    destruct (body l env st) as [[[[|] l']|e|] st']; cbn [fst snd]; auto.
Qed.

Lemma interpolated_camera_read_unfold (folder : string) (fuel : nat) (env : Env)
    (st : St) :
  interpolated_camera_read folder fuel env st =
  match iterate fuel (interpolated_camera_read_body folder 5 (24, 32) 10)
          icr_init env (icr_setup env st)
  with
  | (Val (Break, _), st') => (Val tt, st')
  | (Val (Continue, _), st') => (OutOfFuel, st')
  | (Exc e, st') => (Exc e, st')
  | (OutOfFuel, st') => (OutOfFuel, st')
  end.
Proof.
  unfold interpolated_camera_read, icr_setup. cbv zeta. unfold while_True.
  cbv [bind emit ret]. step_state.
  change {| frame := np.zeros (24 * 32); t_array := [];
            last_update := (-100)%Q; count := 0 |} with icr_init.
  destruct (profiling env); step_state;
    match goal with
    | |- context [iterate fuel ?b icr_init env ?s] =>
        destruct (iterate fuel b icr_init env s) as [[[[|] l']|e|] st']
    end; reflexivity.
Qed.

Lemma icr_setup_facts (env : Env) (st : St) :
  reads (icr_setup env st) = reads st /\
  ticks (icr_setup env st) = ticks st /\
  frame_rates (trace (icr_setup env st)) = frame_rates (trace st) /\
  stats_dumps (trace (icr_setup env st)) = stats_dumps (trace st).
Proof.
  unfold icr_setup. destruct (profiling env); repeat split; reflexivity.
Qed.

(** *** The timing samples *)

Lemma tl_skipn {A : Type} (k : nat) (xs : list A) :
  tl (skipn k xs) = skipn (S k) xs.
Proof.
  revert xs. induction k as [|k IH]; intros xs.
  - destruct xs; reflexivity.
  - destruct xs as [|x xs]; [reflexivity|]. cbn [skipn] in *. apply IH.
Qed.

Lemma lastn_length {A : Type} (n : nat) (xs : list A) :
  List.length (lastn n xs) = Nat.min n (List.length xs).
Proof. unfold lastn. rewrite length_skipn. lia. Qed.

(** Appending a sample and dropping the first one when there are more than
    ten keeps the last ten samples. *)
Lemma lastn_snoc_trim {A : Type} (xs : list A) (d : A) :
  (if 10 <? List.length (lastn 10 xs ++ [d])
   then tl (lastn 10 xs ++ [d]) else lastn 10 xs ++ [d]) =
  lastn 10 (xs ++ [d]).
Proof.
  unfold lastn. rewrite !length_app, length_skipn. cbn [List.length].
  destruct (Nat.ltb_spec 10
              (List.length xs - (List.length xs - 10) + 1)) as [Hgt|Hle].
  - replace (List.length xs + 1 - 10) with (S (List.length xs - 10)) by lia.
    rewrite skipn_app.
    replace (S (List.length xs - 10) - List.length xs) with 0 by lia.
    change (skipn 0 [d]) with [d]. rewrite <- tl_skipn.
    destruct (skipn (List.length xs - 10) xs) as [|y ys] eqn:E; [|reflexivity].
    apply (f_equal (@List.length A)) in E. rewrite length_skipn in E.
    cbn in E. lia.
  - replace (List.length xs - 10) with 0 by lia.
    replace (List.length xs + 1 - 10) with 0 by lia. reflexivity.
Qed.

(** *** The frame rate *)

(** X13: The frame rate is computed over the last ten rounds: after every round
    [t_array] holds the durations of the last ten rounds (of all the rounds
    while there are fewer), so never more than ten samples, and every
    frame-rate line printed is computed from such a [t_array], of one to
    ten samples. *)
Theorem frame_rate_over_last_ten_rounds (env : Env) (folder : string)
    (fuel : nat) :
  Forall (fun ta =>
            (exists k, 1 <= k /\ ta = lastn 10 (timings env k)) /\
            1 <= List.length ta <= 10)
    (frame_rates (trace (snd (interpolated_camera_read folder fuel env st0)))) /\
  match iterate fuel (interpolated_camera_read_body folder 5 (24, 32) 10)
          icr_init env (icr_setup env st0)
  with
  | (Val (_, l), st) =>
      List.length (t_array l) <= 10 /\
      exists m, ticks st = 2 * m /\ t_array l = lastn 10 (timings env m)
  | _ => True
  end.
Proof.
  set (P := fun ta : list Q => exists k, 1 <= k /\ ta = lastn 10 (timings env k)).
  set (body := interpolated_camera_read_body folder 5 (24, 32) 10).
  set (I := fun (l : icr_vars) (st : St) =>
              Forall P (frame_rates (trace st)) /\
              exists m, ticks st = 2 * m /\ t_array l = lastn 10 (timings env m)).
  set (R := fun (r : res (ctl * icr_vars)) (st : St) =>
              Forall P (frame_rates (trace st)) /\
              match r with
              | Val (_, l) =>
                  exists m, ticks st = 2 * m /\
                            t_array l = lastn 10 (timings env m)
              | _ => True
              end).
  assert (Hround : forall l st, I l st ->
            match body l env st with
            | (Val (c, l'), st') => I l' st'
            | (Exc _, st') => Forall P (frame_rates (trace st'))
            | (OutOfFuel, _) => False
            end).
  { intros l st (HF & m & Ht & Hta).
    pose proof (interpolated_camera_read_body_spec folder env l st) as S.
    cbv zeta in S. fold body in S.
    destruct (body l env st) as [[[c l']|e|] st']; [| |exact S].
    - destruct S as (_ & Ht' & _ & Hta' & _ & _ & _ & Hfr & _).
      assert (E : t_array l' = lastn 10 (timings env (S m))).
      { rewrite Hta', Hta, Ht. replace (S (2 * m)) with (2 * m + 1) by lia.
        rewrite lastn_snoc_trim, <- timings_S. reflexivity. }
      split.
      + rewrite Hfr. apply Forall_app. split; [|exact HF].
        destruct (Qgtb _ _); constructor; [|constructor].
        exists (S m). split; [lia | exact E].
      + exists (S m). split; [lia | exact E].
    - destruct S as (_ & Hfr & _). now rewrite Hfr. }
  assert (HR : R (fst (iterate fuel body icr_init env (icr_setup env st0)))
                 (snd (iterate fuel body icr_init env (icr_setup env st0)))).
  { apply (iterate_outcome body env I R).
    - intros l st HI. exact HI.
    - intros l st HI. specialize (Hround l st HI).
      destruct (body l env st) as [[[[|] l']|e|] st']; unfold R;
        try exact Hround; try tauto.
    - split.
      + destruct (icr_setup_facts env st0) as (_ & _ & -> & _). constructor.
      + exists 0. destruct (icr_setup_facts env st0) as (_ & -> & _).
        split; reflexivity. }
  assert (Hlen : forall k, 1 <= k ->
            1 <= List.length (lastn 10 (timings env k)) <= 10).
  { intros k Hk. rewrite lastn_length, timings_length. lia. }
  split.
  - rewrite interpolated_camera_read_unfold. fold body.
    destruct (iterate fuel body icr_init env (icr_setup env st0))
      as [[[[|] l']|e|] st']; cbn [fst snd] in *; destruct HR as [HF _];
      (eapply Forall_impl; [|exact HF]);
      intros ta (k & Hk & ->); (split; [eauto | now apply Hlen]).
  - destruct (iterate fuel body icr_init env (icr_setup env st0))
      as [[[c l']|e|] st']; cbn [fst snd] in *; trivial.
    destruct HR as [_ (m & Hm & E)]. split; [|eauto].
    rewrite E, lastn_length. lia.
Qed.

(** *** The profiling run *)

(** X14: [interpolated_camera_read] returns only with [profiling] set, and then
    at the twentieth frame-rate line, with the profiling statistics dumped
    once, to [profiling_stats.prof] in the output folder.  As long as it
    has not returned (still looping, or ended by an exception) no
    statistics have been dumped and, with [profiling] set, fewer than
    twenty frame-rate lines have been printed. *)
Theorem profiling_run_stops_at_twenty (env : Env) (folder : string)
    (fuel : nat) :
  match fst (interpolated_camera_read folder fuel env st0) with
  | Val _ =>
      profiling env = true /\
      List.length
        (frame_rates (trace (snd (interpolated_camera_read folder fuel env st0))))
      = 20 /\
      stats_dumps (trace (snd (interpolated_camera_read folder fuel env st0))) =
        [(folder ++ "profiling_stats.prof")%string]
  | _ =>
      stats_dumps (trace (snd (interpolated_camera_read folder fuel env st0))) = [] /\
      (profiling env = true ->
       List.length
         (frame_rates (trace (snd (interpolated_camera_read folder fuel env st0))))
       < 20)
  end.
Proof.
  set (body := interpolated_camera_read_body folder 5 (24, 32) 10).
  set (I := fun (l : icr_vars) (st : St) =>
              count l = List.length (frame_rates (trace st)) /\
              (profiling env = true -> count l < 20) /\
              stats_dumps (trace st) = []).
  set (R := fun (r : res (ctl * icr_vars)) (st : St) =>
              match r with
              | Val (Break, _) =>
                  profiling env = true /\
                  List.length (frame_rates (trace st)) = 20 /\
                  stats_dumps (trace st) = [(folder ++ "profiling_stats.prof")%string]
              | _ =>
                  stats_dumps (trace st) = [] /\
                  (profiling env = true ->
                   List.length (frame_rates (trace st)) < 20)
              end).
  assert (HR : R (fst (iterate fuel body icr_init env (icr_setup env st0)))
                 (snd (iterate fuel body icr_init env (icr_setup env st0)))).
  { apply (iterate_outcome body env I R).
    - intros l st (Hc & Hlt & Hd). unfold R. split; [exact Hd|].
      intros Hp. rewrite <- Hc. auto.
    - intros l st (Hc & Hlt & Hd).
      pose proof (interpolated_camera_read_body_spec folder env l st) as S.
      cbv zeta in S. fold body in S.
      destruct (body l env st) as [[[c l']|e|] st']; [| |contradiction].
      + destruct S as (_ & _ & _ & _ & _ & Hc' & Hbrk & Hfr & Hds).
        assert (Hn : List.length (frame_rates (trace st')) = count l').
        { rewrite Hfr, Hc', length_app, <- Hc.
          destruct (Qgtb _ _); cbn [List.length]; lia. }
        destruct c.
        * unfold I. split; [now rewrite Hn|]. split; [|now rewrite Hds, Hd].
          intros Hp. specialize (Hlt Hp). rewrite Hc'.
          destruct (Qgtb _ _) eqn:Hfull; [|exact Hlt].
          destruct (Nat.lt_ge_cases (count l + 1) 20) as [|Hge]; [assumption|].
          assert (B : Continue = Break) by (apply Hbrk; auto).
          discriminate B.
        * unfold R. destruct (proj1 Hbrk eq_refl) as (Hfull & Hp & Hge).
          specialize (Hlt Hp). rewrite Hfull in Hc'.
          split; [exact Hp|]. split; [lia|]. now rewrite Hds, Hd.
      + unfold R. destruct S as (_ & Hfr & Hds & _).
        rewrite Hfr, Hds. split; [exact Hd|]. intros Hp. rewrite <- Hc. auto.
    - unfold I.
      destruct (icr_setup_facts env st0) as (_ & _ & -> & ->).
      cbn. repeat split; lia. }
  rewrite interpolated_camera_read_unfold. fold body.
  destruct (iterate fuel body icr_init env (icr_setup env st0))
    as [[[[|] l']|e|] st']; cbn [fst snd] in *; exact HR.
Qed.

(** *** Rounds that succeed *)

Lemma fliplr_concat_length {A : Type} (g : list (list A)) :
  List.length (List.concat (np.fliplr g)) = List.length (List.concat g).
Proof.
  unfold np.fliplr. induction g as [|row g IH]; cbn [map List.concat].
  - reflexivity.
  - now rewrite !length_app, length_rev, IH.
Qed.

Lemma fliplr_not_empty {A : Type} (g : list (list A)) :
  List.concat g <> [] -> List.concat (np.fliplr g) <> [].
Proof.
  intros H E. apply H. apply length_zero_iff_nil.
  rewrite <- fliplr_concat_length, E. reflexivity.
Qed.

(** With a frame buffer of 768 elements, a read that succeeds and a zoom
    that keeps data, the round completes. *)
Lemma interpolated_camera_read_round_ok (folder : string) (env : Env)
    (l : icr_vars) (st : St) (readings : list Q) :
  List.length (frame l) = 24 * 32 ->
  zoom_keeps_data env ->
  mlx_getFrame env (reads st) = FrameData readings ->
  exists c l' st',
    interpolated_camera_read_body folder 5 (24, 32) 10 l env st =
      (Val (c, l'), st') /\
    List.length (frame l') = 24 * 32.
Proof.
  intros Hlen Hzoom Hread.
  pose proof (interpolated_camera_read_body_spec folder env l st) as S.
  cbv zeta in S.
  destruct (interpolated_camera_read_body folder 5 (24, 32) 10 l env st)
    as [[[c l']|e|] st']; [| |contradiction].
  - exists c, l', st'. split; [reflexivity|].
    destruct S as (_ & _ & (rd & _ & ->) & _). now rewrite refresh_length.
  - exfalso. destruct S as (_ & _ & _ & [H|(rd & Hrd & H)]); [congruence|].
    assert (Hl : List.length (refresh (frame l) rd) = 24 * 32)
      by now rewrite refresh_length.
    rewrite (reshape_ok _ Hl) in H.
    destruct H as [H|(g & Hg & H)]; [discriminate|].
    assert (Eg : np.rows_of 24 32 (refresh (frame l) rd) = g) by congruence.
    clear Hg. subst g.
    assert (Hne : List.concat
                    (ndimage_zoom env
                       (np.fliplr (np.rows_of 24 32 (refresh (frame l) rd))) 10)
                  <> []).
    { apply Hzoom, fliplr_not_empty.
      rewrite concat_rows_of by exact Hl. now apply frame_not_empty. }
    destruct (np_min_spec _ Hne) as (vmin & Hmin & _).
    destruct (np_max_spec _ Hne) as (vmax & Hmax & _).
    destruct H as [H|H]; congruence.
Qed.

Lemma Qgtb_true (a b : Q) : Qgtb a b = true <-> (b < a)%Q.
Proof.
  unfold Qgtb. rewrite negb_true_iff. split.
  - intros H. apply Qnot_le_lt. intros Hle.
    apply Qle_bool_iff in Hle. congruence.
  - intros H. destruct (Qle_bool a b) eqn:E; [|reflexivity].
    apply Qle_bool_iff in E. now apply Qlt_not_le in H.
Qed.

(** X15: With [profiling] off, a sensor whose reads all succeed and a zoom that
    keeps data, [interpolated_camera_read] is still looping after any
    number of rounds: one frame read and two clock reads a round, and no
    way out of the loop. *)
Theorem interpolated_camera_read_runs_on (env : Env) (folder : string)
    (fuel : nat) :
  profiling env = false ->
  zoom_keeps_data env ->
  (forall k, k < fuel -> exists readings, mlx_getFrame env k = FrameData readings) ->
  fst (interpolated_camera_read folder fuel env st0) = OutOfFuel /\
  reads (snd (interpolated_camera_read folder fuel env st0)) = fuel /\
  ticks (snd (interpolated_camera_read folder fuel env st0)) = 2 * fuel.
Proof.
  intros Hp Hzoom Hok.
  set (body := interpolated_camera_read_body folder 5 (24, 32) 10).
  assert (Hloop : forall n l st,
            List.length (frame l) = 24 * 32 ->
            (forall k, k < n -> exists readings,
                 mlx_getFrame env (reads st + k) = FrameData readings) ->
            exists l' st',
              iterate n body l env st = (Val (Continue, l'), st') /\
              reads st' = reads st + n /\ ticks st' = ticks st + 2 * n).
  { induction n as [|n IH]; intros l st Hlen Hreads.
    - exists l, st. cbn. repeat split; lia.
    - destruct (Hreads 0 ltac:(lia)) as (rd & Hrd). rewrite Nat.add_0_r in Hrd.
      destruct (interpolated_camera_read_round_ok folder env l st rd Hlen Hzoom Hrd)
        as (c & l1 & st1 & E & Hlen1).
      pose proof (interpolated_camera_read_body_spec folder env l st) as S.
      cbv zeta in S. rewrite E in S.
      destruct S as (Hr & Ht & _ & _ & _ & _ & Hbrk & _).
      assert (c = Continue) as ->.
      { destruct c; [reflexivity|].
        destruct (proj1 Hbrk eq_refl) as (_ & Hp' & _). congruence. }
      destruct (IH l1 st1 Hlen1) as (l' & st' & E' & Hr' & Ht').
      { intros k Hk. destruct (Hreads (S k) ltac:(lia)) as (rd' & Hrd').
        exists rd'. rewrite <- Hrd'. f_equal. lia. }
      exists l', st'. rewrite iterate_S. fold body in E. rewrite E.
      repeat split; [exact E' | lia | lia]. }
  destruct (Hloop fuel icr_init (icr_setup env st0)) as (l' & st' & E & Hr & Ht).
  - apply zeros_length.
  - destruct (icr_setup_facts env st0) as (-> & _). exact Hok.
  - rewrite interpolated_camera_read_unfold. fold body. rewrite E.
    destruct (icr_setup_facts env st0) as (R0 & T0 & _).
    rewrite R0 in Hr. rewrite T0 in Ht. cbn in Hr, Ht. cbn [fst snd].
    repeat split; lia.
Qed.

Lemma zoom_nearest_keeps_data (g : grid) :
  List.concat g <> [] -> List.concat (zoom_nearest g 10) <> [].
Proof.
  induction g as [|row g IH]; intros Hne; [now cbn in Hne|].
  unfold zoom_nearest in *. cbn [flat_map]. rewrite concat_app.
  destruct row as [|x row].
  - cbn [List.concat app] in Hne. specialize (IH Hne).
    intros E. apply app_eq_nil in E. now destruct E.
  - cbn. discriminate.
Qed.

Lemma interpolated_camera_read_runs_on_witness :
  profiling (sample_env good_sensor false) = false /\
  zoom_keeps_data (sample_env good_sensor false) /\
  (forall k, k < 30 -> exists readings,
       mlx_getFrame (sample_env good_sensor false) k = FrameData readings) /\
  fst (interpolated_camera_read "/home/pi/snapshots/" 30
         (sample_env good_sensor false) st0) = OutOfFuel /\
  reads (snd (interpolated_camera_read "/home/pi/snapshots/" 30
                (sample_env good_sensor false) st0)) = 30 /\
  ticks (snd (interpolated_camera_read "/home/pi/snapshots/" 30
                (sample_env good_sensor false) st0)) = 2 * 30.
Proof.
  assert (H1 : profiling (sample_env good_sensor false) = false) by reflexivity.
  assert (H2 : zoom_keeps_data (sample_env good_sensor false))
    by exact zoom_nearest_keeps_data.
  assert (H3 : forall k, k < 30 -> exists readings,
               mlx_getFrame (sample_env good_sensor false) k = FrameData readings)
    by (intros k _; exists ramp_frame; reflexivity).
  split; [exact H1|]. split; [exact H2|]. split; [exact H3|].
  exact (interpolated_camera_read_runs_on _ "/home/pi/snapshots/" 30 H1 H2 H3).
Defined.

(** *** The profiling run comes to its end *)

(** From any round, a full update comes: either the loop is left there,
    or the count of full updates has gone up by one. *)
Lemma next_full_update (folder : string) (env : Env) :
  profiling env = true ->
  zoom_keeps_data env ->
  (forall k, exists readings, mlx_getFrame env k = FrameData readings) ->
  (forall i j, i <= j -> (time_monotonic env i <= time_monotonic env j)%Q) ->
  forall (d : nat) (l : icr_vars) (st : St) (k : nat),
    List.length (frame l) = 24 * 32 ->
    (last_update l + 5 < time_monotonic env k)%Q ->
    k <= ticks st + d ->
    exists n c l' st',
      iterate n (interpolated_camera_read_body folder 5 (24, 32) 10) l env st =
        (Val (c, l'), st') /\
      (c = Break \/
       (c = Continue /\ count l' = count l + 1 /\ count l' < 20 /\
        List.length (frame l') = 24 * 32)).
Proof.
  intros Hp Hzoom Hok Hmono.
  set (body := interpolated_camera_read_body folder 5 (24, 32) 10).
  induction d as [|d IH]; intros l st k Hlen Hk Hd.
  all: destruct (Hok (reads st)) as (rd & Hrd).
  all: destruct (interpolated_camera_read_round_ok folder env l st rd Hlen Hzoom Hrd)
         as (c & l1 & st1 & E & Hlen1).
  all: pose proof (interpolated_camera_read_body_spec folder env l st) as S.
  all: cbv zeta in S; rewrite E in S.
  all: destruct S as (_ & Ht & _ & _ & Hlu & Hc & Hbrk & _).
  all: destruct (Qgtb (time_monotonic env (ticks st) - last_update l) 5) eqn:Hfull.
  - (* d = 0, full update *)
    exists 1, c, l1, st1. rewrite iterate_S. fold body in E. rewrite E.
    destruct c; [|cbn; auto].
    cbn. split; [reflexivity|]. right.
    destruct (Nat.lt_ge_cases (count l + 1) 20) as [Hlt|Hge].
    + repeat split; try lia; assumption.
    + assert (B : Continue = Break) by (apply Hbrk; auto). discriminate B.
  - (* d = 0, no full update: the clock has passed [k] *)
    exfalso.
    assert (Hle : (time_monotonic env k <= time_monotonic env (ticks st))%Q)
      by (apply Hmono; lia).
    assert (Hgt : Qgtb (time_monotonic env (ticks st) - last_update l) 5 = true)
      by (apply Qgtb_true; lra).
    congruence.
  - (* d + 1, full update *)
    exists 1, c, l1, st1. rewrite iterate_S. fold body in E. rewrite E.
    destruct c; [|cbn; auto].
    cbn. split; [reflexivity|]. right.
    destruct (Nat.lt_ge_cases (count l + 1) 20) as [Hlt|Hge].
    + repeat split; try lia; assumption.
    + assert (B : Continue = Break) by (apply Hbrk; auto). discriminate B.
  - (* d + 1, no full update *)
    assert (c = Continue) as ->.
    { destruct c; [reflexivity|].
      destruct (proj1 Hbrk eq_refl) as (Hf & _). discriminate Hf. }
    assert (Hk' : ticks st < k).
    { destruct (Nat.lt_ge_cases (ticks st) k) as [|Hge]; [assumption|].
      exfalso.
      assert (Hle : (time_monotonic env k <= time_monotonic env (ticks st))%Q)
        by (apply Hmono; lia).
      assert (Hgt : Qgtb (time_monotonic env (ticks st) - last_update l) 5 = true)
        by (apply Qgtb_true; lra).
      congruence. }
    destruct (IH l1 st1 k Hlen1) as (n & c & l' & st' & E' & Hres).
    + now rewrite Hlu.
    + lia.
    + exists (S n), c, l', st'. rewrite iterate_S. fold body in E. rewrite E.
      split; [exact E'|]. rewrite Hc in Hres. exact Hres.
Qed.

(** X16: With [profiling] set, a sensor whose reads all succeed, a zoom that
    keeps data and a clock that advances, [interpolated_camera_read]
    returns: there is a number of rounds after which it has left its loop,
    and more fuel changes nothing. *)
Theorem profiling_run_terminates (env : Env) (folder : string) :
  profiling env = true ->
  zoom_keeps_data env ->
  (forall k, exists readings, mlx_getFrame env k = FrameData readings) ->
  clock_advances env ->
  exists fuel, forall fuel',
    fuel <= fuel' ->
    fst (interpolated_camera_read folder fuel' env st0) = Val tt.
Proof.
  intros Hp Hzoom Hok [Hmono Hunb].
  set (body := interpolated_camera_read_body folder 5 (24, 32) 10).
  assert (Hreach : forall j l st,
            List.length (frame l) = 24 * 32 ->
            count l + j = 20 -> 1 <= j ->
            exists n l' st', iterate n body l env st = (Val (Break, l'), st')).
  { induction j as [|j IH]; intros l st Hlen Hcount Hj; [lia|].
    destruct (Hunb (last_update l + 5)%Q) as (k & Hk).
    destruct (next_full_update folder env Hp Hzoom Hok Hmono k l st k Hlen Hk)
      as (n & c & l1 & st1 & E & [->|(-> & Hc & Hlt & Hlen1)]); [lia| |].
    - now exists n, l1, st1.
    - destruct (IH l1 st1 Hlen1) as (n' & l' & st' & E'); [lia | lia |].
      exists (n + n'), l', st'. fold body in E.
      now rewrite (iterate_add body n n' _ _ _ _ _ E). }
  destruct (Hreach 20 icr_init (icr_setup env st0))
    as (n & l' & st' & E); [apply zeros_length | reflexivity | lia |].
  exists n. intros fuel' Hle.
  rewrite interpolated_camera_read_unfold. fold body.
  rewrite (iterate_left body n fuel' _ _ _ _ _ E); [reflexivity | discriminate | exact Hle].
Qed.

Lemma sample_clock_advances (sensor : nat -> read_result) (prof : bool) :
  clock_advances (sample_env sensor prof).
Proof.
  split; cbn [time_monotonic sample_env].
  - intros i j Hij. rewrite <- Zle_Qle. lia.
  - intros q. exists (Z.to_nat (Z.max 0 (Qfloor q + 1))).
    eapply Qlt_le_trans; [apply Qlt_floor|].
    rewrite <- Zle_Qle. lia.
Qed.

Lemma profiling_run_terminates_witness :
  profiling (sample_env good_sensor true) = true /\
  zoom_keeps_data (sample_env good_sensor true) /\
  (forall k, exists readings,
       mlx_getFrame (sample_env good_sensor true) k = FrameData readings) /\
  clock_advances (sample_env good_sensor true) /\
  exists fuel, forall fuel',
    fuel <= fuel' ->
    fst (interpolated_camera_read "/home/pi/snapshots/" fuel'
           (sample_env good_sensor true) st0) = Val tt.
Proof.
  assert (H1 : profiling (sample_env good_sensor true) = true) by reflexivity.
  assert (H2 : zoom_keeps_data (sample_env good_sensor true))
    by exact zoom_nearest_keeps_data.
  assert (H3 : forall k, exists readings,
               mlx_getFrame (sample_env good_sensor true) k = FrameData readings)
    by (intros k; exists ramp_frame; reflexivity).
  assert (H4 : clock_advances (sample_env good_sensor true))
    by apply sample_clock_advances.
  split; [exact H1|]. split; [exact H2|]. split; [exact H3|]. split; [exact H4|].
  exact (profiling_run_terminates _ "/home/pi/snapshots/" H1 H2 H3 H4).
Defined.

(** ** Mode 4: what the interpolated snapshot shows *)

(** X17: [interpolated_pic] with a frame of 768 readings and a zoom that keeps
    data: it returns after one read; the image shown is the frame in 24
    rows of 32, mirrored and then zoomed by 10; the colour range is set to
    the smallest and the largest value of the zoomed image, not of the
    readings; the figure is saved last, as [interp_pic.png]. *)
Theorem interpolated_pic_shows_zoomed_frame (env : Env) (folder : string)
    (buf : list Q) :
  List.length buf = 768 ->
  mlx_getFrame env 0 = FrameData buf ->
  zoom_keeps_data env ->
  exists vmin vmax,
    let img := ndimage_zoom env (np.fliplr (np.rows_of 24 32 buf)) 10 in
    let st := snd (interpolated_pic folder env st0) in
    fst (interpolated_pic folder env st0) = Val tt /\
    reads st = 1 /\
    hd_error (trace st) = Some (SaveFig (folder ++ "interp_pic.png")) /\
    In (SetArray img) (trace st) /\
    In (SetClim vmin vmax) (trace st) /\
    In vmin (List.concat img) /\ In vmax (List.concat img) /\
    (forall x, In x (List.concat img) -> (vmin <= x <= vmax)%Q).
Proof.
  intros Hlen Hread Hzoom.
  assert (Hlen' : List.length buf = 24 * 32) by exact Hlen.
  assert (Hne : List.concat
                  (ndimage_zoom env (np.fliplr (np.rows_of 24 32 buf)) 10) <> []).
  { apply Hzoom, fliplr_not_empty.
    rewrite concat_rows_of by exact Hlen'. now apply frame_not_empty. }
  destruct (np_min_spec _ Hne) as (vmin & Hmin & Hmin_in & Hmin_le).
  destruct (np_max_spec _ Hne) as (vmax & Hmax & Hmax_in & Hmax_le).
  exists vmin, vmax. cbv zeta.
  assert (E : exists tr,
            interpolated_pic folder env st0 =
            (Val tt,
             {| reads := 1; ticks := 0;
                trace := SaveFig (folder ++ "interp_pic.png") :: FlushEvents ::
                         CanvasBlit :: DrawArtist :: CbarOnMappableChanged ::
                         SetClim vmin vmax ::
                         SetArray (ndimage_zoom env
                                     (np.fliplr (np.rows_of 24 32 buf)) 10) ::
                         tr |})).
  { cbv [interpolated_pic bind emit ret lift getFrame logger_debug st0].
    step_state.
    destruct (DEBUG_MODE env); step_state; rewrite Hread; step_state;
      rewrite refresh_full by (rewrite zeros_length; exact Hlen);
      rewrite (reshape_ok buf Hlen'); step_state;
      rewrite Hmin; step_state; rewrite Hmax; step_state;
      eexists; reflexivity. }
  destruct E as (tr & ->). cbn [fst snd reads trace hd_error].
  split; [reflexivity|]. split; [reflexivity|]. split; [reflexivity|].
  split; [cbn; auto 10|]. split; [cbn; auto 10|].
  split; [exact Hmin_in|]. split; [exact Hmax_in|].
  intros x Hx. split; auto.
Qed.

Lemma interpolated_pic_shows_zoomed_frame_witness :
  List.length ramp_frame = 768 /\
  mlx_getFrame (sample_env good_sensor false) 0 = FrameData ramp_frame /\
  zoom_keeps_data (sample_env good_sensor false) /\
  fst (interpolated_pic "/home/pi/snapshots/" (sample_env good_sensor false) st0)
  = Val tt.
Proof.
  assert (H1 : List.length ramp_frame = 768) by (vm_compute; reflexivity).
  assert (H2 : mlx_getFrame (sample_env good_sensor false) 0 = FrameData ramp_frame)
    by reflexivity.
  assert (H3 : zoom_keeps_data (sample_env good_sensor false))
    by exact zoom_nearest_keeps_data.
  destruct (interpolated_pic_shows_zoomed_frame
              (sample_env good_sensor false) "/home/pi/snapshots/" ramp_frame
              H1 H2 H3) as (vmin & vmax & A & _).
  split; [exact H1|]. split; [exact H2|]. split; [exact H3 | exact A].
Defined.

(** ** The frame-timing list of [interpolated_camera_read] *)

Lemma lastn_all {A : Type} (n : nat) (xs : list A) :
  List.length xs <= n -> lastn n xs = xs.
Proof.
  intros H. unfold lastn. replace (List.length xs - n) with 0 by lia.
  reflexivity.
Qed.

(** C10: in [interpolated_camera_read] every round that completes appends
    exactly one timing sample to [t_array] and drops the oldest one when
    that makes more than ten, so that [t_array], which starts empty, holds
    at most 10 samples at the end of every round, and every frame-rate
    line printed is computed from at most the 10 latest samples. *)
Theorem t_array_holds_at_most_ten (env : Env) (folder : string) :
  (forall l st,
     match interpolated_camera_read_body folder 5 (24, 32) 10 l env st with
     | (Val (_, l'), _) =>
         List.length (t_array l) <= 10 ->
         t_array l' =
           lastn 10 (t_array l ++
                     [(time_monotonic env (S (ticks st)) -
                       time_monotonic env (ticks st))%Q]) /\
         List.length (t_array l') = Nat.min 10 (S (List.length (t_array l)))
     | _ => True
     end) /\
  (forall n,
     match iterate n (interpolated_camera_read_body folder 5 (24, 32) 10)
             icr_init env (icr_setup env st0)
     with
     | (Val (_, l), _) => List.length (t_array l) <= 10
     | _ => True
     end) /\
  (forall fuel,
     Forall (fun ta => 1 <= List.length ta <= 10)
       (frame_rates
          (trace (snd (interpolated_camera_read folder fuel env st0))))).
Proof.
  set (body := interpolated_camera_read_body folder 5 (24, 32) 10).
  assert (Hround : forall l st,
            match body l env st with
            | (Val (_, l'), _) =>
                List.length (t_array l) <= 10 ->
                t_array l' =
                  lastn 10 (t_array l ++
                            [(time_monotonic env (S (ticks st)) -
                              time_monotonic env (ticks st))%Q]) /\
                List.length (t_array l') = Nat.min 10 (S (List.length (t_array l)))
            | _ => True
            end).
  { intros l st.
    pose proof (interpolated_camera_read_body_spec folder env l st) as S.
    cbv zeta in S. fold body in S.
    destruct (body l env st) as [[[c l']|e|] st']; trivial.
    destruct S as (_ & _ & _ & Hta & _). intros Hlen.
    assert (E : t_array l' =
                lastn 10 (t_array l ++
                          [(time_monotonic env (S (ticks st)) -
                            time_monotonic env (ticks st))%Q])).
    { rewrite Hta. rewrite <- lastn_snoc_trim.
      now rewrite (lastn_all 10 (t_array l) Hlen). }
    split; [exact E|].
    rewrite E, lastn_length, length_app. cbn [List.length]. lia. }
  set (Inv := fun (l : icr_vars) (st : St) =>
              List.length (t_array l) <= 10 /\
              Forall (fun ta => 1 <= List.length ta <= 10)
                (frame_rates (trace st))).
  set (R := fun (r : res (ctl * icr_vars)) (st : St) =>
              Forall (fun ta => 1 <= List.length ta <= 10)
                (frame_rates (trace st)) /\
              match r with
              | Val (_, l) => List.length (t_array l) <= 10
              | _ => True
              end).
  assert (HR : forall n,
            R (fst (iterate n body icr_init env (icr_setup env st0)))
              (snd (iterate n body icr_init env (icr_setup env st0)))).
  { intros n. apply (iterate_outcome body env Inv R).
    - intros l st [H1 H2]. split; assumption.
    - intros l st [H1 H2].
      pose proof (Hround l st) as Hr.
      pose proof (interpolated_camera_read_body_spec folder env l st) as S.
      cbv zeta in S. fold body in S.
      destruct (body l env st) as [[[c l']|e|] st']; [| |contradiction].
      + destruct (Hr H1) as [_ Hlen].
        destruct S as (_ & _ & _ & _ & _ & _ & _ & Hfr & _).
        assert (HF : Forall (fun ta => 1 <= List.length ta <= 10)
                       (frame_rates (trace st'))).
        { rewrite Hfr. apply Forall_app. split; [|exact H2].
          destruct (Qgtb _ _); constructor; [lia | constructor]. }
        destruct c; [split|split]; try assumption; lia.
      + destruct S as (_ & Hfr & _). split; [now rewrite Hfr | exact Logic.I].
    - destruct (icr_setup_facts env st0) as (_ & _ & Hfr & _).
      split; [cbn; lia | rewrite Hfr; constructor]. }
  split; [exact Hround|]. split.
  - intros n. specialize (HR n).
    destruct (iterate n body icr_init env (icr_setup env st0))
      as [[[c l']|e|] st']; cbn [fst snd] in HR; trivial. apply HR.
  - intros fuel. rewrite interpolated_camera_read_unfold. fold body.
    specialize (HR fuel).
    destruct (iterate fuel body icr_init env (icr_setup env st0))
      as [[[[|] l']|e|] st']; cbn [fst snd] in *; apply HR.
Qed.

Lemma t_array_holds_at_most_ten_witness :
  List.length (t_array icr_init) <= 10 /\
  List.length
    (frame_rates
       (trace (snd (interpolated_camera_read "/home/pi/snapshots/" 12
                      (sample_env good_sensor false) st0)))) = 12 /\
  Forall (fun ta => 1 <= List.length ta <= 10)
    (frame_rates
       (trace (snd (interpolated_camera_read "/home/pi/snapshots/" 12
                      (sample_env good_sensor false) st0)))).
Proof.
  split; [cbn; lia|]. split; [vm_compute; reflexivity|].
  exact (proj2 (proj2 (t_array_holds_at_most_ten
                         (sample_env good_sensor false) "/home/pi/snapshots/"))
           12).
Defined.

(** ** Which modes loop for ever *)

(** A read that succeeds lets [simple_pic] return. *)
Lemma simple_pic_returns (env : Env) (folder : string) (buf : list Q) :
  mlx_getFrame env 0 = FrameData buf ->
  fst (simple_pic folder env st0) = Val tt /\
  reads (snd (simple_pic folder env st0)) = 1.
Proof.
  intros Hread.
  set (fr := refresh (np.zeros (24 * 32)) buf).
  assert (Hl : List.length fr = 24 * 32)
    by (unfold fr; now rewrite refresh_length, zeros_length).
  assert (Hne : List.concat (np.rows_of 24 32 fr) <> [])
    by (rewrite concat_rows_of by exact Hl; now apply frame_not_empty).
  destruct (np_min_spec _ Hne) as (vmin & Hmin & _).
  destruct (np_max_spec _ Hne) as (vmax & Hmax & _).
  cbv [simple_pic bind emit ret lift getFrame st0]. step_state.
  rewrite Hread. step_state. fold fr.
  rewrite (reshape_ok fr Hl). step_state. rewrite Hmin. step_state.
  rewrite Hmax. step_state. split; reflexivity.
Qed.

(** So it does [interpolated_pic], when the zoom keeps data. *)
Lemma interpolated_pic_returns (env : Env) (folder : string) (buf : list Q) :
  zoom_keeps_data env ->
  mlx_getFrame env 0 = FrameData buf ->
  fst (interpolated_pic folder env st0) = Val tt /\
  reads (snd (interpolated_pic folder env st0)) = 1.
Proof.
  intros Hzoom Hread.
  set (fr := refresh (np.zeros (24 * 32)) buf).
  assert (Hl : List.length fr = 24 * 32)
    by (unfold fr; now rewrite refresh_length, zeros_length).
  assert (Hne : List.concat
                  (ndimage_zoom env (np.fliplr (np.rows_of 24 32 fr)) 10) <> []).
  { apply Hzoom, fliplr_not_empty.
    rewrite concat_rows_of by exact Hl. now apply frame_not_empty. }
  destruct (np_min_spec _ Hne) as (vmin & Hmin & _).
  destruct (np_max_spec _ Hne) as (vmax & Hmax & _).
  cbv [interpolated_pic bind emit ret lift getFrame logger_debug st0].
  step_state.
  destruct (DEBUG_MODE env); step_state;
    rewrite Hread; step_state; fold fr;
    rewrite (reshape_ok fr Hl); step_state; rewrite Hmin; step_state;
    rewrite Hmax; step_state; split; reflexivity.
Qed.

(** With [profiling] off no round of [interpolated_camera_read] leaves the
    loop by [break]. *)
Lemma interpolated_camera_read_no_break (env : Env) (folder : string) :
  profiling env = false ->
  forall n l st,
    match fst (iterate n (interpolated_camera_read_body folder 5 (24, 32) 10)
                 l env st)
    with
    | Val (Break, _) => False
    | OutOfFuel => False
    | _ => True
    end.
Proof.
  intros Hp n l st.
  apply (iterate_outcome (interpolated_camera_read_body folder 5 (24, 32) 10)
           env (fun _ _ => True)
           (fun r _ => match r with
                       | Val (Break, _) => False
                       | OutOfFuel => False
                       | _ => True
                       end)); [trivial| |trivial].
  clear l st. intros l st _.
  pose proof (interpolated_camera_read_body_spec folder env l st) as S.
  cbv zeta in S.
  destruct (interpolated_camera_read_body folder 5 (24, 32) 10 l env st)
    as [[[[|] l']|e|] st']; trivial.
  destruct S as (_ & _ & _ & _ & _ & _ & Hbrk & _).
  destruct (proj1 Hbrk eq_refl) as (_ & Hp' & _). congruence.
Qed.

(** Rounds of [interpolated_camera_read] whose reads succeed, with
    [profiling] off: each completes and the loop goes on. *)
Lemma interpolated_camera_read_rounds (env : Env) (folder : string) :
  profiling env = false ->
  zoom_keeps_data env ->
  forall n l st,
    List.length (frame l) = 24 * 32 ->
    (forall k, k < n -> exists readings,
         mlx_getFrame env (reads st + k) = FrameData readings) ->
    exists l' st',
      iterate n (interpolated_camera_read_body folder 5 (24, 32) 10) l env st =
        (Val (Continue, l'), st') /\
      reads st' = reads st + n.
Proof.
  intros Hp Hzoom.
  induction n as [|n IH]; intros l st Hlen Hreads.
  - exists l, st. cbn. split; [reflexivity | lia].
  - destruct (Hreads 0 ltac:(lia)) as (rd & Hrd). rewrite Nat.add_0_r in Hrd.
    destruct (interpolated_camera_read_round_ok folder env l st rd Hlen Hzoom Hrd)
      as (c & l1 & st1 & E & Hlen1).
    pose proof (interpolated_camera_read_body_spec folder env l st) as S.
    cbv zeta in S. rewrite E in S.
    destruct S as (Hr & _ & _ & _ & _ & _ & Hbrk & _).
    assert (c = Continue) as ->.
    { destruct c; [reflexivity|].
      destruct (proj1 Hbrk eq_refl) as (_ & Hp' & _). congruence. }
    destruct (IH l1 st1 Hlen1) as (l' & st' & E' & Hr').
    { intros k Hk. destruct (Hreads (S k) ltac:(lia)) as (rd' & Hrd').
      exists rd'. rewrite <- Hrd'. f_equal. lia. }
    exists l', st'. rewrite iterate_S, E. split; [exact E' | lia].
Qed.

(** The three modes that take one picture or one mean return, and
    [interpolated_camera_read] returns when [profiling] is set. *)
Lemma single_pass_modes_return :
  (exists v,
     fst (print_mean_temp 1 (sample_env good_sensor false) st0) = Val v) /\
  fst (simple_pic "/home/pi/snapshots/" (sample_env good_sensor false) st0) =
    Val tt /\
  fst (interpolated_pic "/home/pi/snapshots/" (sample_env good_sensor false) st0) =
    Val tt /\
  fst (interpolated_camera_read "/home/pi/snapshots/" 20
         (sample_env good_sensor true) st0) = Val tt.
Proof.
  split; [eexists; vm_compute; reflexivity|].
  split; [vm_compute; reflexivity|].
  split; vm_compute; reflexivity.
Qed.

(** C9: the modes whose body is a loop without a normal way out are
    [simple_camera_read] and, with [profiling] unset,
    [interpolated_camera_read]: they never return, whatever the number of
    rounds, and on a sensor whose reads succeed they are still looping
    after any number of rounds, one frame read a round.  The other three
    modes are no such loops: [print_mean_temp], [simple_pic] and
    [interpolated_pic] return after one read that succeeds. *)
Theorem live_modes_never_return (env : Env) (folder : string) (fuel : nat) :
  (match fst (simple_camera_read fuel env st0) with
   | Val _ => False
   | Exc e => e <> ValueError
   | OutOfFuel => True
   end) /\
  (profiling env = false ->
   match fst (interpolated_camera_read folder fuel env st0) with
   | Val _ => False
   | _ => True
   end) /\
  ((forall k, k < fuel -> exists readings,
        mlx_getFrame env k = FrameData readings) ->
   (fst (simple_camera_read fuel env st0) = OutOfFuel /\
    reads (snd (simple_camera_read fuel env st0)) = fuel) /\
   (profiling env = false -> zoom_keeps_data env ->
    fst (interpolated_camera_read folder fuel env st0) = OutOfFuel /\
    reads (snd (interpolated_camera_read folder fuel env st0)) = fuel)) /\
  (forall buf,
     mlx_getFrame env 0 = FrameData buf ->
     (exists v, print_mean_temp (S fuel) env st0 =
                (Val v, {| reads := 1; ticks := 0;
                           trace := [Stdout (MeanTemp (fst v) (snd v))] |})) /\
     (fst (simple_pic folder env st0) = Val tt /\
      reads (snd (simple_pic folder env st0)) = 1) /\
     (zoom_keeps_data env ->
      fst (interpolated_pic folder env st0) = Val tt /\
      reads (snd (interpolated_pic folder env st0)) = 1)).
Proof.
  split; [|split; [|split]].
  - rewrite simple_camera_read_unfold.
    match goal with
    | |- context [iterate fuel _ (?f, ?t) env ?s] =>
        pose proof (simple_camera_read_loop env fuel f t s (zeros_length _)) as H;
          destruct (iterate fuel _ (f, t) env s) as [[[[|] [f' t']]|e'|] st']
    end; cbn [fst snd]; try exact I; try contradiction. apply H.
  - intros Hp. rewrite interpolated_camera_read_unfold.
    pose proof (interpolated_camera_read_no_break env folder Hp fuel icr_init
                  (icr_setup env st0)) as H.
    destruct (iterate fuel _ icr_init env (icr_setup env st0))
      as [[[[|] l']|e|] st']; cbn [fst snd] in *; trivial.
  - intros Hok. split.
    + rewrite simple_camera_read_unfold.
      match goal with
      | |- context [iterate fuel _ (?f, ?t) env ?s] =>
          pose proof (simple_camera_read_loop env fuel f t s (zeros_length _))
            as H;
            destruct (iterate fuel _ (f, t) env s) as [[[[|] [f' t']]|e'|] st']
      end; cbn [fst snd]; cbn [reads push st0 Nat.add] in H;
        try contradiction.
      * split; [reflexivity | apply H].
      * exfalso. destruct H as (_ & k & Hk & Hg & _).
        destruct (Hok k Hk) as (rd & Hrd). congruence.
    + intros Hp Hzoom. rewrite interpolated_camera_read_unfold.
      destruct (interpolated_camera_read_rounds env folder Hp Hzoom fuel
                  icr_init (icr_setup env st0)) as (l' & st' & E & Hr).
      * apply zeros_length.
      * destruct (icr_setup_facts env st0) as (-> & _). exact Hok.
      * rewrite E. cbn [fst snd].
        destruct (icr_setup_facts env st0) as (R0 & _).
        rewrite R0 in Hr. cbn in Hr. split; [reflexivity | exact Hr].
  - intros buf Hread. split; [|split].
    + rewrite print_mean_temp_unfold.
      rewrite (print_mean_temp_first_success env 0 buf _ st0 (S fuel));
        [|exact Hread|intros k Hk; lia|lia].
      exists (np_mean env (refresh (np.zeros (24 * 32)) buf),
              c_to_f (np_mean env (refresh (np.zeros (24 * 32)) buf))).
      reflexivity.
    + now apply (simple_pic_returns env folder buf).
    + intros Hzoom. now apply (interpolated_pic_returns env folder buf).
Qed.

Lemma live_modes_never_return_witness :
  (forall k, k < 6 -> exists readings,
       mlx_getFrame (sample_env good_sensor false) k = FrameData readings) /\
  profiling (sample_env good_sensor false) = false /\
  zoom_keeps_data (sample_env good_sensor false) /\
  fst (simple_camera_read 6 (sample_env good_sensor false) st0) = OutOfFuel /\
  fst (interpolated_camera_read "/home/pi/snapshots/" 6
         (sample_env good_sensor false) st0) = OutOfFuel /\
  fst (simple_pic "/home/pi/snapshots/" (sample_env good_sensor false) st0) =
    Val tt.
Proof.
  assert (H1 : forall k, k < 6 -> exists readings,
               mlx_getFrame (sample_env good_sensor false) k = FrameData readings)
    by (intros k _; exists ramp_frame; reflexivity).
  assert (H2 : profiling (sample_env good_sensor false) = false) by reflexivity.
  assert (H3 : zoom_keeps_data (sample_env good_sensor false))
    by exact zoom_nearest_keeps_data.
  pose proof (live_modes_never_return (sample_env good_sensor false)
                "/home/pi/snapshots/" 6) as (_ & _ & A & B).
  destruct (A H1) as ((A1 & _) & A2). destruct (A2 H2 H3) as (A3 & _).
  destruct (B ramp_frame eq_refl) as (_ & (B1 & _) & _).
  repeat (split; [assumption|]). exact B1.
Defined.

(** ** Where a failed read is retried *)





(** ** The profiling statistics *)

Lemma in_stats_dumps (p : string) (tr : list event) :
  In (DumpStats p) tr <-> In p (stats_dumps tr).
Proof.
  unfold stats_dumps. rewrite in_flat_map. split.
  - intros H. exists (DumpStats p). split; [exact H | now left].
  - intros (e & He & Hp). destruct e; cbn in Hp; try contradiction.
    destruct Hp as [<-|[]]. exact He.
Qed.

(** The start-up prints no frame rate and dumps no statistics. *)
Lemma startup_no_stats (env : Env) :
  frame_rates
    (trace (push MLXInit (push (I2CInit 800000) (after_startup env st0)))) = [] /\
  stats_dumps
    (trace (push MLXInit (push (I2CInit 800000) (after_startup env st0)))) = [].
Proof.
  unfold after_startup, startup_trace. destruct (DEBUG_MODE env); split; reflexivity.
Qed.

(** The loop of [interpolated_camera_read] entered with no frame rate
    printed and no statistics dumped: it is left by [break] only with
    [profiling] set, at the twentieth frame-rate line and with the
    statistics dumped once; until then nothing is dumped. *)
Lemma interpolated_camera_read_loop_outcome (env : Env) (folder : string)
    (fuel : nat) (st : St) :
  frame_rates (trace st) = [] ->
  stats_dumps (trace st) = [] ->
  match iterate fuel (interpolated_camera_read_body folder 5 (24, 32) 10)
          icr_init env (icr_setup env st)
  with
  | (Val (Break, _), st') =>
      profiling env = true /\
      List.length (frame_rates (trace st')) = 20 /\
      stats_dumps (trace st') = [(folder ++ "profiling_stats.prof")%string]
  | (_, st') =>
      stats_dumps (trace st') = [] /\
      (profiling env = true -> List.length (frame_rates (trace st')) < 20)
  end.
Proof.
  intros Hfr0 Hds0.
  set (body := interpolated_camera_read_body folder 5 (24, 32) 10).
  set (Inv := fun (l : icr_vars) (st : St) =>
                count l = List.length (frame_rates (trace st)) /\
                (profiling env = true -> count l < 20) /\
                stats_dumps (trace st) = []).
  set (R := fun (r : res (ctl * icr_vars)) (st : St) =>
              match r with
              | Val (Break, _) =>
                  profiling env = true /\
                  List.length (frame_rates (trace st)) = 20 /\
                  stats_dumps (trace st) =
                    [(folder ++ "profiling_stats.prof")%string]
              | _ =>
                  stats_dumps (trace st) = [] /\
                  (profiling env = true ->
                   List.length (frame_rates (trace st)) < 20)
              end).
  assert (HR : R (fst (iterate fuel body icr_init env (icr_setup env st)))
                 (snd (iterate fuel body icr_init env (icr_setup env st)))).
  { apply (iterate_outcome body env Inv R).
    - intros l s (Hc & Hlt & Hd). unfold R. split; [exact Hd|].
      intros Hp. rewrite <- Hc. auto.
    - intros l s (Hc & Hlt & Hd).
      pose proof (interpolated_camera_read_body_spec folder env l s) as S.
      cbv zeta in S. fold body in S.
      destruct (body l env s) as [[[c l']|e|] s']; [| |contradiction].
      + destruct S as (_ & _ & _ & _ & _ & Hc' & Hbrk & Hfr & Hds).
        assert (Hn : List.length (frame_rates (trace s')) = count l').
        { rewrite Hfr, Hc', length_app, <- Hc.
          destruct (Qgtb _ _); cbn [List.length]; lia. }
        destruct c.
        * unfold Inv. split; [now rewrite Hn|]. split; [|now rewrite Hds, Hd].
          intros Hp. specialize (Hlt Hp). rewrite Hc'.
          destruct (Qgtb _ _) eqn:Hfull; [|exact Hlt].
          destruct (Nat.lt_ge_cases (count l + 1) 20) as [|Hge]; [assumption|].
          assert (B : Continue = Break) by (apply Hbrk; auto).
          discriminate B.
        * unfold R. destruct (proj1 Hbrk eq_refl) as (Hfull & Hp & Hge).
          specialize (Hlt Hp). rewrite Hfull in Hc'.
          split; [exact Hp|]. split; [lia|]. now rewrite Hds, Hd.
      + unfold R. destruct S as (_ & Hfr & Hds & _).
        rewrite Hfr, Hds. split; [exact Hd|]. intros Hp. rewrite <- Hc. auto.
    - unfold Inv.
      destruct (icr_setup_facts env st) as (_ & _ & -> & ->).
      rewrite Hfr0, Hds0. cbn. repeat split; lia. }
  destruct (iterate fuel body icr_init env (icr_setup env st))
    as [[[[|] l']|e|] st']; cbn [fst snd] in *; exact HR.
Qed.

(** With [profiling] set, reads that succeed, a zoom that keeps data and a
    clock that advances, the loop comes to its [break]. *)
Lemma interpolated_camera_read_reaches_break (env : Env) (folder : string)
    (st : St) :
  profiling env = true ->
  zoom_keeps_data env ->
  (forall k, exists readings, mlx_getFrame env k = FrameData readings) ->
  clock_advances env ->
  exists n l' st',
    iterate n (interpolated_camera_read_body folder 5 (24, 32) 10)
      icr_init env (icr_setup env st) = (Val (Break, l'), st').
Proof.
  intros Hp Hzoom Hok [Hmono Hunb].
  set (body := interpolated_camera_read_body folder 5 (24, 32) 10).
  assert (Hreach : forall j l s,
            List.length (frame l) = 24 * 32 ->
            count l + j = 20 -> 1 <= j ->
            exists n l' s', iterate n body l env s = (Val (Break, l'), s')).
  { induction j as [|j IH]; intros l s Hlen Hcount Hj; [lia|].
    destruct (Hunb (last_update l + 5)%Q) as (k & Hk).
    destruct (next_full_update folder env Hp Hzoom Hok Hmono k l s k Hlen Hk)
      as (n & c & l1 & s1 & E & [->|(-> & Hc & Hlt & Hlen1)]); [lia| |].
    - now exists n, l1, s1.
    - destruct (IH l1 s1 Hlen1) as (n' & l' & s' & E'); [lia | lia |].
      exists (n + n'), l', s'. fold body in E.
      now rewrite (iterate_add body n n' _ _ _ _ _ E). }
  apply (Hreach 20 icr_init (icr_setup env st));
    [apply zeros_length | reflexivity | lia].
Qed.

(** C8: the profiling statistics are written when the flag [profiling] is
    set, and only then.  Whatever the mode, statistics dumped mean mode 5
    with [profiling] set, the file [profiling_stats.prof] in the
    configured output folder, and [interpolated_camera_read] returned;
    with [profiling] unset no run of the script dumps statistics.  When
    [interpolated_camera_read] returns, [profiling] is set, exactly 20
    frame-rate lines (one per full update of the colour bar) have been
    printed and the statistics have been dumped once; with [profiling]
    set, reads that succeed, a zoom that keeps data and a clock that
    advances, it does return. *)
Theorem profiling_stats_written_iff_profiling (env : Env) (folder : string) :
  cfg_get (config env) "FILEPATHS" "output_folder" = inr folder ->
  (forall mode fuel p,
     In (DumpStats p) (trace (snd (main mode fuel env st0))) ->
     mode = 5 /\ profiling env = true /\
     p = (folder ++ "profiling_stats.prof")%string /\
     fst (main mode fuel env st0) = Val tt) /\
  (profiling env = false ->
   forall mode fuel, stats_dumps (trace (snd (main mode fuel env st0))) = []) /\
  (forall fuel,
     fst (main 5 fuel env st0) = Val tt ->
     profiling env = true /\
     List.length (frame_rates (trace (snd (main 5 fuel env st0)))) = 20 /\
     stats_dumps (trace (snd (main 5 fuel env st0))) =
       [(folder ++ "profiling_stats.prof")%string]) /\
  (profiling env = true ->
   zoom_keeps_data env ->
   (forall k, exists readings, mlx_getFrame env k = FrameData readings) ->
   clock_advances env ->
   exists fuel, forall fuel',
     fuel <= fuel' ->
     fst (main 5 fuel' env st0) = Val tt /\
     stats_dumps (trace (snd (main 5 fuel' env st0))) =
       [(folder ++ "profiling_stats.prof")%string]).
Proof.
  intros C.
  set (s1 := push MLXInit (push (I2CInit 800000) (after_startup env st0))).
  assert (Hmain : forall fuel,
            main 5 fuel env st0 = interpolated_camera_read folder fuel env s1).
  { intros fuel. rewrite main_cases, C. reflexivity. }
  assert (Hout : forall fuel,
            match fst (main 5 fuel env st0) with
            | Val _ =>
                profiling env = true /\
                List.length (frame_rates (trace (snd (main 5 fuel env st0)))) = 20 /\
                stats_dumps (trace (snd (main 5 fuel env st0))) =
                  [(folder ++ "profiling_stats.prof")%string]
            | _ => stats_dumps (trace (snd (main 5 fuel env st0))) = []
            end).
  { intros fuel. rewrite Hmain, interpolated_camera_read_unfold.
    destruct (startup_no_stats env) as [F0 D0]. fold s1 in F0, D0.
    pose proof (interpolated_camera_read_loop_outcome env folder fuel s1 F0 D0)
      as H.
    destruct (iterate fuel _ icr_init env (icr_setup env s1))
      as [[[[|] l']|e|] st']; cbn [fst snd]; try exact H; apply H. }
  assert (Hin : forall mode fuel p,
            In (DumpStats p) (trace (snd (main mode fuel env st0))) ->
            mode = 5 /\ profiling env = true /\
            p = (folder ++ "profiling_stats.prof")%string).
  { intros mode fuel p H.
    destruct (main_events env mode fuel folder C) as [F _].
    rewrite Forall_forall in F. destruct (F _ H) as [_ HF]. exact HF. }
  split; [|split; [|split]].
  - intros mode fuel p H. destruct (Hin mode fuel p H) as (-> & Hp & ->).
    repeat split; try assumption.
    specialize (Hout fuel). apply in_stats_dumps in H.
    destruct (fst (main 5 fuel env st0)) as [[]|e|];
      [reflexivity | rewrite Hout in H; contradiction
       | rewrite Hout in H; contradiction].
  - intros Hp mode fuel.
    destruct (stats_dumps (trace (snd (main mode fuel env st0)))) as [|p ps] eqn:E;
      [reflexivity|].
    assert (H : In (DumpStats p) (trace (snd (main mode fuel env st0))))
      by (apply in_stats_dumps; rewrite E; now left).
    destruct (Hin mode fuel p H) as (_ & Hp' & _). congruence.
  - intros fuel H. specialize (Hout fuel). rewrite H in Hout. exact Hout.
  - intros Hp Hzoom Hok Hclock.
    destruct (interpolated_camera_read_reaches_break env folder s1
                Hp Hzoom Hok Hclock) as (n & l' & st' & E).
    exists n. intros fuel' Hle.
    assert (Hv : fst (main 5 fuel' env st0) = Val tt).
    { rewrite Hmain, interpolated_camera_read_unfold.
      rewrite (iterate_left _ n fuel' _ _ _ _ _ E);
        [reflexivity | discriminate | exact Hle]. }
    split; [exact Hv|].
    specialize (Hout fuel'). rewrite Hv in Hout. apply Hout.
Qed.

Lemma profiling_stats_written_iff_profiling_witness :
  cfg_get (config (sample_env good_sensor true)) "FILEPATHS" "output_folder" =
    inr "/home/pi/snapshots/" /\
  profiling (sample_env good_sensor true) = true /\
  fst (main 5 20 (sample_env good_sensor true) st0) = Val tt /\
  stats_dumps (trace (snd (main 5 20 (sample_env good_sensor true) st0))) =
    ["/home/pi/snapshots/profiling_stats.prof"] /\
  List.length
    (frame_rates (trace (snd (main 5 20 (sample_env good_sensor true) st0)))) = 20.
Proof.
  assert (C : cfg_get (config (sample_env good_sensor true))
                "FILEPATHS" "output_folder" = inr "/home/pi/snapshots/")
    by reflexivity.
  assert (V : fst (main 5 20 (sample_env good_sensor true) st0) = Val tt)
    by (vm_compute; reflexivity).
  pose proof (profiling_stats_written_iff_profiling
                (sample_env good_sensor true) "/home/pi/snapshots/" C)
    as (_ & _ & A & _).
  destruct (A 20 V) as (A1 & A2 & A3).
  split; [exact C|]. split; [exact A1|]. split; [exact V|].
  split; [exact A3 | exact A2].
Defined.

(** ** The configuration *)

(** A loop whose body does the same in two environments does the same in
    them. *)
Lemma iterate_env {L : Type} (body : L -> M (ctl * L)) (env env' : Env) :
  (forall l st, body l env st = body l env' st) ->
  forall n l st, iterate n body l env st = iterate n body l env' st.
Proof.
  intros H. induction n as [|n IH]; intros l st; [reflexivity|].
  rewrite !iterate_S, H.
  destruct (body l env' st) as [[[[|] l']|e|] st']; auto.
Qed.

Lemma while_True_env {L : Type} (body : L -> M (ctl * L)) (env env' : Env) :
  (forall l st, body l env st = body l env' st) ->
  forall fuel l st,
    while_True fuel body l env st = while_True fuel body l env' st.
Proof.
  intros H fuel l st. unfold while_True. now rewrite (iterate_env body env env' H).
Qed.

(** No mode looks at the configuration. *)
Lemma run_mode_ignores_config (env : Env) (c : ConfigParser) (mode : nat)
    (folder : string) (fuel : nat) (st : St) :
  run_mode mode folder fuel (with_config env c) st =
  run_mode mode folder fuel env st.
Proof.
  destruct mode as [|[|[|[|[|[|mode]]]]]]; cbn [run_mode]; try reflexivity.
  - unfold print_mean_temp, bind at 1 2 3 4.
    rewrite (while_True_env print_mean_temp_body (with_config env c) env)
      by reflexivity.
    reflexivity.
  - rewrite !simple_camera_read_unfold.
    rewrite (iterate_env (simple_camera_read_body (24, 32))
               (with_config env c) env) by (intros [f t] s; reflexivity).
    reflexivity.
  - rewrite !interpolated_camera_read_unfold.
    rewrite (iterate_env (interpolated_camera_read_body folder 5 (24, 32) 10)
               (with_config env c) env).
    2:{ intros l s.
        cbv [interpolated_camera_read_body plot_update bind emit ret lift
             getFrame monotonic print logger_info].
        change (mlx_getFrame (with_config env c)) with (mlx_getFrame env).
        change (time_monotonic (with_config env c)) with (time_monotonic env).
        change (ndimage_zoom (with_config env c)) with (ndimage_zoom env).
        destruct (Qgtb (time_monotonic env (ticks s) - last_update l) 5);
          [|reflexivity].
        cbv beta iota.
        change (profiling (with_config env c)) with (profiling env).
        destruct (profiling env && (20 <=? count l + 1)); reflexivity. }
    reflexivity.
Qed.

Section Follows.
Context (folder : string) (env : Env).

Lemma follows_ret {A : Type} (a : A) : follows folder env (ret a) (ret a).
Proof. intros st. reflexivity. Qed.

Lemma follows_bind {A B : Type} (m m0 : M A) (k k0 : A -> M B) :
  follows folder env m m0 -> (forall a, follows folder env (k a) (k0 a)) ->
  follows folder env (bind m k) (bind m0 k0).
Proof.
  intros Hm Hk st. unfold bind. rewrite Hm.
  destruct (m0 env st) as [[a|e|] st1]; cbn [fst snd]; [apply Hk| |];
    reflexivity.
Qed.

Lemma follows_emit (e e0 : event) :
  e = in_folder folder e0 -> follows folder env (emit e) (emit e0).
Proof. intros -> st. reflexivity. Qed.

Lemma follows_lift {A : Type} (r : exn + A) :
  follows folder env (lift r) (lift r).
Proof. intros st. unfold lift. destruct r; reflexivity. Qed.

Lemma follows_getFrame (frame : list Q) :
  follows folder env (getFrame frame) (getFrame frame).
Proof.
  intros st. unfold getFrame. cbn [reads under].
  destruct (mlx_getFrame env (reads st)); reflexivity.
Qed.

Lemma follows_monotonic : follows folder env monotonic monotonic.
Proof. intros st. reflexivity. Qed.

Lemma follows_try_except {A : Type} (body body0 handler handler0 : M A)
    (exc : exn) :
  follows folder env body body0 -> follows folder env handler handler0 ->
  follows folder env (try_except body exc handler)
    (try_except body0 exc handler0).
Proof.
  intros Hb Hh st. unfold try_except. rewrite Hb.
  destruct (body0 env st) as [[a|e|] st1]; cbn [fst snd]; try reflexivity.
  destruct (exn_eqb e exc); [apply Hh | reflexivity].
Qed.

Lemma follows_iterate {L : Type} (body body0 : L -> M (ctl * L)) (n : nat)
    (l : L) :
  (forall l, follows folder env (body l) (body0 l)) ->
  follows folder env (iterate n body l) (iterate n body0 l).
Proof.
  intros Hb. revert l. induction n as [|n IH]; intros l; cbn [iterate].
  - apply follows_ret.
  - apply follows_bind; [apply Hb|]. intros [[|] l'].
    + apply IH.
    + apply follows_ret.
Qed.

Lemma follows_while_True {L : Type} (body body0 : L -> M (ctl * L))
    (fuel : nat) (l : L) :
  (forall l, follows folder env (body l) (body0 l)) ->
  follows folder env (while_True fuel body l) (while_True fuel body0 l).
Proof.
  intros Hb st. unfold while_True.
  rewrite (follows_iterate body body0 fuel l Hb st).
  destruct (iterate fuel body0 l env st) as [[[[|] l']|e|] st1]; reflexivity.
Qed.

Lemma follows_logger_debug (msg : string) (args : list string) :
  follows folder env (logger_debug msg args) (logger_debug msg args).
Proof.
  intros st. unfold logger_debug. destruct (DEBUG_MODE env); reflexivity.
Qed.

Lemma follows_logger_info (msg : string) :
  follows folder env (logger_info msg) (logger_info msg).
Proof.
  intros st. unfold logger_info. destruct (DEBUG_MODE env); reflexivity.
Qed.

Lemma follows_ext {A : Type} (m m' m0 m0' : M A) :
  (forall st, m env st = m' env st) ->
  (forall st, m0 env st = m0' env st) ->
  follows folder env m' m0' -> follows folder env m m0.
Proof.
  intros E E0 H st. rewrite E, E0. apply H.
Qed.

End Follows.

Ltac follows_step :=
  lazymatch goal with
  | |- follows _ _ (ret _) _ => apply follows_ret
  | |- follows _ _ (bind _ _) _ => apply follows_bind; [|intros ?]
  | |- follows _ _ (lift _) _ => apply follows_lift
  | |- follows _ _ (getFrame _) _ => apply follows_getFrame
  | |- follows _ _ monotonic _ => apply follows_monotonic
  | |- follows _ _ (try_except _ _ _) _ => apply follows_try_except
  | |- follows _ _ (while_True _ _ _) _ =>
      apply follows_while_True; intros ?
  | |- follows _ _ (logger_debug _ _) _ => apply follows_logger_debug
  | |- follows _ _ (logger_info _) _ => apply follows_logger_info
  | |- follows _ _ (emit _) _ => apply follows_emit; reflexivity
  | |- follows _ _ (fun _ => _) _ =>
      eapply follows_ext;
      [intros ?; cbv beta; reflexivity | intros ?; cbv beta; reflexivity|]
  | |- follows _ _ (match ?x with _ => _ end) _ => destruct x eqn:?
  end.

(** The output folder is only ever put in front of a file name: a mode
    run with [folder] does what it does with the empty folder, with
    [folder] in front of the paths. *)
Lemma run_mode_follows (env : Env) (mode : nat) (folder : string) (fuel : nat) :
  follows folder env (run_mode mode folder fuel) (run_mode mode "" fuel).
Proof.
  destruct mode as [|[|[|[|[|[|mode]]]]]]; cbn [run_mode].
  - unfold print. follows_step.
  - unfold print_mean_temp, print_mean_temp_body, print. cbv zeta.
    repeat follows_step.
  - unfold simple_pic. cbv zeta. repeat follows_step.
  - unfold simple_camera_read, simple_camera_read_body, print. cbv zeta.
    repeat follows_step.
  - unfold interpolated_pic. cbv zeta. repeat follows_step.
  - unfold interpolated_camera_read, interpolated_camera_read_body,
      plot_update, print. cbv zeta. repeat follows_step.
  - unfold print. follows_step.
Qed.

(** The start-up names no file in the output folder. *)
Lemma under_startup (env : Env) (folder : string) :
  under folder (push MLXInit (push (I2CInit 800000) (after_startup env st0))) =
  push MLXInit (push (I2CInit 800000) (after_startup env st0)).
Proof.
  unfold after_startup, startup_trace, under, push.
  destruct (DEBUG_MODE env); reflexivity.
Qed.

Lemma after_startup_config (env : Env) (c : ConfigParser) (st : St) :
  (DEBUG_MODE env = true -> cfg_sections c = cfg_sections (config env)) ->
  after_startup (with_config env c) st = after_startup env st.
Proof.
  intros H. unfold after_startup, startup_trace.
  change (DEBUG_MODE (with_config env c)) with (DEBUG_MODE env).
  change (config (with_config env c)) with c.
  destruct (DEBUG_MODE env); [rewrite H by reflexivity|]; reflexivity.
Qed.

(** C7: the script consumes one configuration key, option [output_folder]
    of section [FILEPATHS].  A run is the same with any other
    configuration that gives this key the same value (and, in debug mode,
    where the section names are logged, has the same section names).  The
    value is only ever put in front of a file name: the run is the run of
    the mode with the empty folder, with the value in front of the paths
    of the figures saved and of the profiling statistics dumped and
    loaded. *)
Theorem only_output_folder_is_consumed (env : Env) (mode fuel : nat) :
  (forall c,
     cfg_get c "FILEPATHS" "output_folder" =
       cfg_get (config env) "FILEPATHS" "output_folder" ->
     (DEBUG_MODE env = true -> cfg_sections c = cfg_sections (config env)) ->
     main mode fuel (with_config env c) st0 = main mode fuel env st0) /\
  (forall folder,
     cfg_get (config env) "FILEPATHS" "output_folder" = inr folder ->
     main mode fuel env st0 =
     (fst (run_mode mode "" fuel env
             (push MLXInit (push (I2CInit 800000) (after_startup env st0)))),
      under folder
        (snd (run_mode mode "" fuel env
                (push MLXInit (push (I2CInit 800000) (after_startup env st0))))))).
Proof.
  split.
  - intros c Hget Hsec. rewrite !main_cases.
    change (config (with_config env c)) with c. rewrite Hget.
    rewrite (after_startup_config env c st0 Hsec).
    destruct (cfg_get (config env) "FILEPATHS" "output_folder") as [e|folder];
      [reflexivity|].
    apply run_mode_ignores_config.
  - intros folder C. rewrite main_cases, C.
    rewrite <- (under_startup env folder) at 1.
    apply run_mode_follows.
Qed.

Lemma only_output_folder_is_consumed_witness :
  cfg_get crowded_config "FILEPATHS" "output_folder" =
    cfg_get (config (sample_env good_sensor true)) "FILEPATHS" "output_folder" /\
  cfg_get crowded_config "CAMERA" "refresh_rate" <>
    cfg_get (config (sample_env good_sensor true)) "CAMERA" "refresh_rate" /\
  main 5 20 (with_config (sample_env good_sensor true) crowded_config) st0 =
    main 5 20 (sample_env good_sensor true) st0 /\
  file_paths (trace (snd (main 5 20 (sample_env good_sensor true) st0))) =
    ["/home/pi/snapshots/profiling_stats.prof";
     "/home/pi/snapshots/profiling_stats.prof";
     "sequential_config.ini"; "pithermcam.log"].
Proof.
  assert (H1 : cfg_get crowded_config "FILEPATHS" "output_folder" =
               cfg_get (config (sample_env good_sensor true))
                 "FILEPATHS" "output_folder") by reflexivity.
  assert (H2 : DEBUG_MODE (sample_env good_sensor true) = true ->
               cfg_sections crowded_config =
               cfg_sections (config (sample_env good_sensor true)))
    by (intros H; discriminate H).
  pose proof (only_output_folder_is_consumed (sample_env good_sensor true) 5 20)
    as (A & B).
  split; [exact H1|]. split; [discriminate|]. split; [exact (A _ H1 H2)|].
  rewrite (B "/home/pi/snapshots/" eq_refl). vm_compute. reflexivity.
Defined.
